(** * Trajectory helpers of the XVIZ builder

    A shallow embedding of
    [modules/builder/src/builders/helpers/xviz-trajectory-helper.js].

    Conventions of the embedding.
    - JavaScript numbers that carry measurements (meters, degrees, radians)
      are exact reals [R]; frame numbers and array indices are integers [Z].
    - A JavaScript array of three numbers ([[x, y, z]], [[lng, lat, alt]]) is a
      [Vec3]; a property that may be absent from an object is an [option].
    - Reading a property of [undefined] or [null] raises a [TypeError]; the
      functions that can do so return a [Result], and the error records the
      expression that raised it.
    - The libraries the helpers import are not part of the sources. The
      rigid transforms of math.gl are modelled after the specification and
      the library ([MathGL]); the geodesy primitives of turf and
      viewport-mercator-project are parameters of the helpers ([Geodesy]),
      with great circles on a sphere as one instance ([Sphere]). *)

From Stdlib Require Import Reals Lra RNsatz.
From stdpp Require Import gmap strings list.

Set Default Proof Using "Type".

(** ** JavaScript values and faults *)

(** The property reads of the source that can hit [undefined] or [null]. *)
Inductive Site :=
  | poses_i_pose            (* poses[i].pose              getPoseTrajectory, loop *)
  | poses_startFrame_pose   (* poses[startFrame].pose     getPoseTrajectory *)
  | poseFrames_startFrame_pose   (* poseFrames[startFrame].pose      getObjectTrajectory *)
  | poseFrames_startFrame_i_pose (* poseFrames[startFrame + i].pose  getObjectTrajectory, loop *)
  | step_x                  (* step.x                     getObjectTrajectory, loop *)
  | objects_find.           (* objects.find(...)          getObjectMotions, loop *)

Inductive Fault := TypeError (site : Site).

Inductive Result (A : Type) :=
  | Ok (a : A)
  | Throw (e : Fault).
Arguments Ok {A} a.
Arguments Throw {A} e.

(** Sequencing: a fault of the first computation is the fault of the whole. *)
#[global] Instance Result_bind : MBind Result := λ A B k r,
  match r with
  | Ok a => k a
  | Throw e => Throw e
  end.

#[global] Instance Result_fmap : FMap Result := λ A B f r,
  match r with
  | Ok a => Ok (f a)
  | Throw e => Throw e
  end.

(** A loop that pushes one element per iteration and stops at the first
    fault. *)
Fixpoint forEach {A B} (f : A → Result B) (l : list A) : Result (list B) :=
  match l with
  | [] => Ok []
  | a :: l' => b ← f a; bs ← forEach f l'; Ok (b :: bs)
  end.

(** [o.prop] where [o] may be [undefined]: a [TypeError] at [site]. *)
Definition read {A} (site : Site) (o : option A) : Result A :=
  match o with
  | Some a => Ok a
  | None => Throw (TypeError site)
  end.

(** [arr[i]] for an array [arr] and an integer [i]: [None] is [undefined]. *)
Definition array_get {A} (arr : list A) (i : Z) : option A :=
  if decide (0 ≤ i)%Z then arr !! Z.to_nat i else None.

(** [v || 0] for a numeric property that may be absent. *)
Definition or0 (v : option R) : R := default 0%R v.

(** What a lookup can return: [undefined], [null] or a value. *)
Inductive JsValue (A : Type) :=
  | undefined
  | null
  | value (a : A).
Arguments undefined {A}.
Arguments null {A}.
Arguments value {A} a.

(** ** Data model *)

(** An array of three numbers. *)
Record Vec3 := mkVec3 { v0 : R; v1 : R; v2 : R }.

Module Pose.
(** [{x, y, z, longitude, latitude, altitude, roll, pitch, yaw}] *)
Record t := mk {
  x : option R; y : option R; z : option R;
  longitude : option R; latitude : option R; altitude : option R;
  roll : option R; pitch : option R; yaw : option R
}.
End Pose.

(** A frame of pose data: [{pose: {...}}]. *)
Record PoseFrame := mkPoseFrame { pose : Pose.t }.

Module Obj.
(** [{id, x, y, z, firstFrame, lastFrame}] *)
Record t := mk {
  id : string;
  x : R; y : R; z : R;
  firstFrame : Z; lastFrame : Z
}.
End Obj.

(** [objectFrames] is either a [Map] from frame number to the frame's objects,
    or an array of frames, or something else. *)
Inductive Frames :=
  | FramesMap (m : gmap Z (list Obj.t))
  | FramesArray (a : list (list Obj.t))
  | FramesOther.

(** ** The rigid-transform library (math.gl) *)

Module MathGL.
Local Open Scope R_scope.

(** Modelled from the spec: math.gl's [Matrix4] is not part of the sources.
    Every matrix the helpers build is a homogeneous matrix with last row
    [(0, 0, 0, 1)]; the twelve entries above it are kept, row by row. *)
Record Matrix4 := mkMatrix4 {
  m00 : R; m01 : R; m02 : R; m03 : R;
  m10 : R; m11 : R; m12 : R; m13 : R;
  m20 : R; m21 : R; m22 : R; m23 : R
}.

(** Modelled from the spec: the matrix product [a * b] ([b] acts first). *)
Definition multiply (a b : Matrix4) : Matrix4 :=
  mkMatrix4
    (m00 a * m00 b + m01 a * m10 b + m02 a * m20 b)
    (m00 a * m01 b + m01 a * m11 b + m02 a * m21 b)
    (m00 a * m02 b + m01 a * m12 b + m02 a * m22 b)
    (m00 a * m03 b + m01 a * m13 b + m02 a * m23 b + m03 a)
    (m10 a * m00 b + m11 a * m10 b + m12 a * m20 b)
    (m10 a * m01 b + m11 a * m11 b + m12 a * m21 b)
    (m10 a * m02 b + m11 a * m12 b + m12 a * m22 b)
    (m10 a * m03 b + m11 a * m13 b + m12 a * m23 b + m13 a)
    (m20 a * m00 b + m21 a * m10 b + m22 a * m20 b)
    (m20 a * m01 b + m21 a * m11 b + m22 a * m21 b)
    (m20 a * m02 b + m21 a * m12 b + m22 a * m22 b)
    (m20 a * m03 b + m21 a * m13 b + m22 a * m23 b + m23 a).

(** Modelled from the spec: [invert] is the standard rigid-transform inverse,
    the transposed rotation with the translation [-(R^T t)]. *)
Definition invert (a : Matrix4) : Matrix4 :=
  mkMatrix4
    (m00 a) (m10 a) (m20 a) (- (m00 a * m03 a + m10 a * m13 a + m20 a * m23 a))
    (m01 a) (m11 a) (m21 a) (- (m01 a * m03 a + m11 a * m13 a + m21 a * m23 a))
    (m02 a) (m12 a) (m22 a) (- (m02 a * m03 a + m12 a * m13 a + m22 a * m23 a)).

(** Modelled from the spec: [transformVector] applies the matrix to a point
    [[x, y, z]]; the result is read back through its [.x], [.y], [.z]. *)
Definition transformVector (a : Matrix4) (p : Vec3) : Vec3 :=
  mkVec3
    (m00 a * v0 p + m01 a * v1 p + m02 a * v2 p + m03 a)
    (m10 a * v0 p + m11 a * v1 p + m12 a * v2 p + m13 a)
    (m20 a * v0 p + m21 a * v1 p + m22 a * v2 p + m23 a).

(** Modelled from the spec: math.gl's [Pose], a position and roll, pitch,
    yaw; [new Pose({...})] takes absent properties as 0. *)
Record Pose := mkPose {
  px : R; py : R; pz : R;
  proll : R; ppitch : R; pyaw : R
}.

Definition newPose (x y z roll pitch yaw : option R) : Pose :=
  mkPose (default 0 x) (default 0 y) (default 0 z)
         (default 0 roll) (default 0 pitch) (default 0 yaw).

(** Modelled from the spec: [getTransformationMatrix] maps a point of the
    pose's local frame to world-local coordinates: the rotation by yaw about
    z, pitch about y and roll about x, then the translation by the
    position. *)
Definition getTransformationMatrix (p : Pose) : Matrix4 :=
  let sr := sin (proll p) in
  let sp := sin (ppitch p) in
  let sw := sin (pyaw p) in
  let cr := cos (proll p) in
  let cp := cos (ppitch p) in
  let cw := cos (pyaw p) in
  mkMatrix4
    (cw * cp) (- sw * cr + cw * sp * sr) (sw * sr + cw * sp * cr) (px p)
    (sw * cp) (cw * cr + sw * sp * sr) (- cw * sr + sw * sp * cr) (py p)
    (- sp) (cp * sr) (cp * cr) (pz p).

(** [this.getTransformationMatrixFromPose(other)] of math.gl, which is not
    part of the sources: the library multiplies the matrix of [this] by the
    inverted matrix of [other]
    ([new Matrix4().multiplyRight(T_this).multiplyRight(T_other.invert())]).
    The specification describes the relative transform as the matrix that
    takes a point of the frame of [this] to its coordinates in the frame of
    [other]; that is the product of the same two factors in the other order,
    and the helper's own comment records that the library has the transforms
    from and to a pose flipped. The product below is the one the library
    computes. *)
Definition getTransformationMatrixFromPose (this other : Pose) : Matrix4 :=
  multiply (getTransformationMatrix this)
           (invert (getTransformationMatrix other)).

End MathGL.

(** ** The geodesy libraries (turf, viewport-mercator-project) *)

(** The helpers use three geodesy primitives; none is part of the sources,
    so the helpers are parametrised by them. The primitives are taken as
    functions that return: a library call that raises instead (an offset
    primitive may refuse a latitude beyond 90 degrees) ends the helper
    without a result and is outside the embedding. The properties below are
    therefore stated for calls that return, as equalities of two calls, or
    as the absence of a result; none says that a call that reaches a
    primitive returns. *)
Class Geodesy := {
  (** [addMetersToLngLat([lng, lat, alt], [x, y, z])]: the geodetic
      coordinate reached from the anchor by the meter offset. *)
  addMetersToLngLat : Vec3 → Vec3 → Vec3;
  (** [turf.distance(a, b, {units: 'meters'})]: great-circle distance. *)
  turf_distance : Vec3 → Vec3 → R;
  (** [turf.bearing(a, b)]: initial bearing, degrees clockwise from north. *)
  turf_bearing : Vec3 → Vec3 → R
}.

(** Modelled from the spec: [turf.degreesToRadians] converts degrees to
    radians. *)
Definition turf_degreesToRadians (degrees : R) : R := (degrees * PI / 180)%R.

(** ** The helpers of [xviz-trajectory-helper.js] *)

Section Helpers.
Context `{Geodesy}.
Local Open Scope R_scope.

(** [getGeospatialVector(from, to)]: the meter vector between two geospatial
    coordinates, in the world coordinate system. *)
Definition getGeospatialVector (from to : Pose.t) : Vec3 :=
  let fromCoord :=
    addMetersToLngLat
      (mkVec3 (or0 (Pose.longitude from)) (or0 (Pose.latitude from))
              (or0 (Pose.altitude from)))
      (mkVec3 (or0 (Pose.x from)) (or0 (Pose.y from)) (or0 (Pose.z from))) in
  let toCoord :=
    addMetersToLngLat
      (mkVec3 (or0 (Pose.longitude to)) (or0 (Pose.latitude to))
              (or0 (Pose.altitude to)))
      (mkVec3 (or0 (Pose.x to)) (or0 (Pose.y to)) (or0 (Pose.z to))) in
  let distInMeters := turf_distance fromCoord toCoord in
  let bearing := turf_bearing fromCoord toCoord in
  let bearingInRadians := turf_degreesToRadians bearing in
  let diffZ := v2 toCoord - v2 fromCoord in
  mkVec3 (distInMeters * sin bearingInRadians)
         (distInMeters * cos bearingInRadians)
         diffZ.

(** [getGeospatialToPoseTransform(from, to)] *)
Definition getGeospatialToPoseTransform (from to : Pose.t) : MathGL.Matrix4 :=
  let offset := getGeospatialVector from to in
  let fromPose :=
    MathGL.newPose (Some 0) (Some 0) (Some 0)
                   (Pose.roll from) (Pose.pitch from) (Pose.yaw from) in
  let toPose :=
    MathGL.newPose (Some (v0 offset)) (Some (v1 offset)) (Some (v2 offset))
                   (Pose.roll to) (Pose.pitch to) (Pose.yaw to) in
  MathGL.getTransformationMatrixFromPose fromPose toPose.

(** [new Pose(startPose)]: the constructor reads the position and the
    orientation and ignores the geodetic anchor. *)
Definition newPose_of (p : Pose.t) : MathGL.Pose :=
  MathGL.newPose (Pose.x p) (Pose.y p) (Pose.z p)
                 (Pose.roll p) (Pose.pitch p) (Pose.yaw p).

(** [getPoseTrajectory({poses, startFrame, endFrame})] *)
Definition getPoseTrajectory
    (poses : list PoseFrame) (startFrame endFrame : Z) : Result (list Vec3) :=
  let iterationLimit := Z.min endFrame (Z.of_nat (length poses)) in
  positions ←
    forEach (λ i, pose <$> read poses_i_pose (array_get poses i))
            (seqZ startFrame (iterationLimit - startFrame));
  startPose ← pose <$> read poses_startFrame_pose (array_get poses startFrame);
  let transformMatrix :=
    MathGL.invert (MathGL.getTransformationMatrix (newPose_of startPose)) in
  Ok (map (λ currPose,
             let offset := getGeospatialVector startPose currPose in
             let relativeOffset :=
               MathGL.transformVector transformMatrix offset in
             mkVec3 (v0 relativeOffset) (v1 relativeOffset) (v2 relativeOffset))
          positions).

End Helpers.

(** [getFrameObjects(frames, frameNumber)]: [Map.prototype.get] and an array
    read both give [undefined] where there is no entry. *)
Definition getFrameObjects (frames : Frames) (frameNumber : Z)
    : JsValue (list Obj.t) :=
  match frames with
  | FramesMap m =>
      match m !! frameNumber with
      | Some objects => value objects
      | None => undefined
      end
  | FramesArray a =>
      match array_get a frameNumber with
      | Some objects => value objects
      | None => undefined
      end
  | FramesOther => null
  end.

(** [objects.find(obj => obj.id === targetObject.id)]: the first record with
    the identifier, [None] ([undefined]) when there is none; a [TypeError]
    when [objects] itself is [undefined] or [null]. *)
Definition findObject (objects : JsValue (list Obj.t)) (targetObject : Obj.t)
    : Result (option Obj.t) :=
  match objects with
  | value l =>
      Ok (List.find (λ obj, String.eqb (Obj.id obj) (Obj.id targetObject)) l)
  | undefined | null => Throw (TypeError objects_find)
  end.

(** [getObjectMotions(targetObject, objectFrames, startFrame, endFrame)] *)
Definition getObjectMotions
    (targetObject : Obj.t) (objectFrames : Frames) (startFrame endFrame : Z)
    : Result (list (option Obj.t)) :=
  let startFrame := Z.max (Obj.firstFrame targetObject) startFrame in
  let endFrame := Z.min (Obj.lastFrame targetObject) endFrame in
  forEach (λ i,
             let objects := getFrameObjects objectFrames i in
             findObject objects targetObject)
          (seqZ startFrame (endFrame - startFrame)).

(** An index loop [for (let i = i0; i < i0 + l.length; i++)] over an array,
    pushing one element per iteration. *)
Fixpoint forEachFrom {A B} (f : Z → A → Result B) (i : Z) (l : list A)
    : Result (list B) :=
  match l with
  | [] => Ok []
  | a :: l' => b ← f i a; bs ← forEachFrom f (i + 1)%Z l'; Ok (b :: bs)
  end.

Section ObjectTrajectory.
Context `{Geodesy}.

(** The body of the loop of [getObjectTrajectory] at index [i]. *)
Definition trajectoryStep
    (poseFrames : list PoseFrame) (startFrame : Z) (startVehiclePose : Pose.t)
    (i : Z) (step : option Obj.t) : Result Vec3 :=
  currVehiclePose ←
    pose <$> read poseFrames_startFrame_i_pose
                  (array_get poseFrames (startFrame + i));
  let transformMatrix :=
    getGeospatialToPoseTransform currVehiclePose startVehiclePose in
  step ← read step_x step;
  let p :=
    MathGL.transformVector transformMatrix
      (mkVec3 (Obj.x step) (Obj.y step) (Obj.z step)) in
  Ok (mkVec3 (v0 p) (v1 p) (v2 p)).

(** [getObjectTrajectory({targetObject, objectFrames, poseFrames, startFrame,
    endFrame})] *)
Definition getObjectTrajectory
    (targetObject : Obj.t) (objectFrames : Frames)
    (poseFrames : list PoseFrame) (startFrame endFrame : Z)
    : Result (list Vec3) :=
  startVehiclePose ←
    pose <$> read poseFrames_startFrame_pose (array_get poseFrames startFrame);
  let limit := Z.min endFrame (Obj.lastFrame targetObject) in
  motions ← getObjectMotions targetObject objectFrames startFrame limit;
  forEachFrom (trajectoryStep poseFrames startFrame startVehiclePose) 0 motions.

End ObjectTrajectory.

(** A vertex: [[x, y, z]] or [[x, y]]. *)
Inductive Vertex :=
  | Vertex3 (x y z : R)
  | Vertex2 (x y : R).

(** The base pose handed to [getRelativeCoordinates]: an instance of
    math.gl's [Pose], or a plain object from which one is built. *)
Inductive BasePose :=
  | PoseInstance (p : MathGL.Pose)
  | PoseObject (o : Pose.t).

(** Modelled from the spec: [transformVector] on a vertex. A vertex of three
    coordinates is transformed as a point; a vertex of two coordinates is
    transformed as the point at height 0 and keeps its two coordinates. *)
Definition transformVertex (a : MathGL.Matrix4) (p : Vertex) : Vertex :=
  match p with
  | Vertex3 x y z =>
      let q := MathGL.transformVector a (mkVec3 x y z) in
      Vertex3 (v0 q) (v1 q) (v2 q)
  | Vertex2 x y =>
      let q := MathGL.transformVector a (mkVec3 x y 0) in
      Vertex2 (v0 q) (v1 q)
  end.

(** [getRelativeCoordinates(vertices, basePose)] *)
Definition getRelativeCoordinates
    (vertices : list Vertex) (basePose : BasePose) : list Vertex :=
  let basePose :=
    match basePose with
    | PoseInstance p => p
    | PoseObject o => newPose_of o
    end in
  let transformMatrix := MathGL.getTransformationMatrix basePose in
  map (λ p, transformVertex transformMatrix p) vertices.

(** ** A concrete geodesy: great circles on a sphere *)

Module Sphere.
Local Open Scope R_scope.

(** [Math.atan2(y, x)] on real numbers. *)
Definition atan2 (y x : R) : R :=
  if Rlt_dec 0 x then atan (y / x)
  else if Rlt_dec x 0 then
    (if Rle_dec 0 y then atan (y / x) + PI else atan (y / x) - PI)
  else if Rlt_dec 0 y then PI / 2
  else if Rlt_dec y 0 then - (PI / 2)
  else 0.

(** Mean radius of the earth in meters. *)
Definition earthRadius : R := 63710088 / 10.

Definition radiansToDegrees (radians : R) : R := radians * 180 / PI.

(** Modelled from the spec: the great-circle surface distance, by the
    haversine formula, in meters. *)
Definition distance (a b : Vec3) : R :=
  let dLat := turf_degreesToRadians (v1 b - v1 a) in
  let dLon := turf_degreesToRadians (v0 b - v0 a) in
  let lat1 := turf_degreesToRadians (v1 a) in
  let lat2 := turf_degreesToRadians (v1 b) in
  let h := (sin (dLat / 2))² + (sin (dLon / 2))² * cos lat1 * cos lat2 in
  2 * atan2 (sqrt h) (sqrt (1 - h)) * earthRadius.

(** Modelled from the spec: the initial bearing (forward azimuth) in degrees,
    clockwise from north. *)
Definition bearing (a b : Vec3) : R :=
  let lon1 := turf_degreesToRadians (v0 a) in
  let lon2 := turf_degreesToRadians (v0 b) in
  let lat1 := turf_degreesToRadians (v1 a) in
  let lat2 := turf_degreesToRadians (v1 b) in
  let s := sin (lon2 - lon1) * cos lat2 in
  let c := cos lat1 * sin lat2 - sin lat1 * cos lat2 * cos (lon2 - lon1) in
  radiansToDegrees (atan2 s c).

(** Modelled from the spec: a geodetic-offset primitive. The anchor moves by
    the arc of the meter offset along its parallel and its meridian, and the
    altitude by [z]; the zero offset leaves the anchor where it is. *)
Definition addMeters (lngLatZ xyz : Vec3) : Vec3 :=
  let lat := turf_degreesToRadians (v1 lngLatZ) in
  mkVec3 (v0 lngLatZ + radiansToDegrees (v0 xyz / (earthRadius * cos lat)))
         (v1 lngLatZ + radiansToDegrees (v1 xyz / earthRadius))
         (v2 lngLatZ + v2 xyz).

(** A quarter of a great circle, in meters. *)
Definition quarter : R := PI / 2 * earthRadius.

#[local] Instance geodesy : Geodesy := {|
  addMetersToLngLat := addMeters;
  turf_distance := distance;
  turf_bearing := bearing
|}.

End Sphere.

(** ** Notions used to state the properties *)

Section Notions.
Local Open Scope R_scope.


Definition vsub (a b : Vec3) : Vec3 :=
  mkVec3 (v0 a - v0 b) (v1 a - v1 b) (v2 a - v2 b).

Definition vopp (a : Vec3) : Vec3 := mkVec3 (- v0 a) (- v1 a) (- v2 a).

Definition origin : Vec3 := mkVec3 0 0 0.

(** The translational part of a matrix: its fourth column. *)
Definition translation (a : MathGL.Matrix4) : Vec3 :=
  mkVec3 (MathGL.m03 a) (MathGL.m13 a) (MathGL.m23 a).

(** The orientation of a pose, at the origin. *)
Definition orientation (p : Pose.t) : MathGL.Pose :=
  MathGL.newPose (Some 0) (Some 0) (Some 0)
                 (Pose.roll p) (Pose.pitch p) (Pose.yaw p).

(** A vector given in the local axes of a pose, expressed in world axes, and
    back. *)
Definition toWorldAxes (p : Pose.t) (v : Vec3) : Vec3 :=
  MathGL.transformVector (MathGL.getTransformationMatrix (orientation p)) v.

Definition toLocalAxes (p : Pose.t) (v : Vec3) : Vec3 :=
  MathGL.transformVector
    (MathGL.invert (MathGL.getTransformationMatrix (orientation p))) v.

(** The local position [(x, y, z)] of a pose, absent coordinates being 0. *)
Definition position (p : Pose.t) : Vec3 :=
  mkVec3 (or0 (Pose.x p)) (or0 (Pose.y p)) (or0 (Pose.z p)).

(** The geodetic anchor [(longitude, latitude, altitude)] of a pose, absent
    coordinates being 0. *)
Definition anchor (p : Pose.t) : Vec3 :=
  mkVec3 (or0 (Pose.longitude p)) (or0 (Pose.latitude p))
         (or0 (Pose.altitude p)).

(** The squared distance of two points. *)
Definition dist2 (a b : Vec3) : R :=
  (v0 a - v0 b)² + (v1 a - v1 b)² + (v2 a - v2 b)².

(** The point of a vertex of three coordinates. *)
Definition Vertex3_of (p : Vec3) : Vertex := Vertex3 (v0 p) (v1 p) (v2 p).

(** The pose [getRelativeCoordinates] works with: the instance it is given,
    or the one it builds from a plain object. *)
Definition builtPose (basePose : BasePose) : MathGL.Pose :=
  match basePose with
  | PoseInstance p => p
  | PoseObject o => newPose_of o
  end.

(** A vertex moved by [(dx, dy, dz)]; a vertex of two coordinates has no
    height to move. *)
Definition shiftVertex (dx dy dz : R) (p : Vertex) : Vertex :=
  match p with
  | Vertex3 x y z => Vertex3 (x + dx) (y + dy) (z + dz)
  | Vertex2 x y => Vertex2 (x + dx) (y + dy)
  end.

(** The offset [[step.x, step.y, step.z]] of an object record. *)
Definition offset_of (o : Obj.t) : Vec3 :=
  mkVec3 (Obj.x o) (Obj.y o) (Obj.z o).

End Notions.

Section Displacement.
Context `{Geodesy}.
Local Open Scope R_scope.

(** The absolute coordinate of a record: its meter offset added to its
    geodetic anchor. *)
Definition absolute (p : Pose.t) : Vec3 :=
  addMetersToLngLat (anchor p) (position p).

(** A field of a record as the specification reads it: a missing field
    defaults to 0. *)
Definition field_or_zero (v : option R) : R :=
  match v with
  | Some r => r
  | None => 0
  end.

(** The absolute coordinate of a record as the specification words it: the
    meter offset [(x, y, z)] of the record added to its geodetic anchor
    [(longitude, latitude, altitude)]. *)
Definition absolute_spec (p : Pose.t) : Vec3 :=
  addMetersToLngLat
    (mkVec3 (field_or_zero (Pose.longitude p))
            (field_or_zero (Pose.latitude p))
            (field_or_zero (Pose.altitude p)))
    (mkVec3 (field_or_zero (Pose.x p))
            (field_or_zero (Pose.y p))
            (field_or_zero (Pose.z p))).

(** The displacement as the specification words it:
    [(d sin b, d cos b, altitude difference)], [d] the great-circle distance
    and [b] the initial bearing, degrees converted to radians, between the
    absolute coordinates of [from] and [to], and the altitude of the absolute
    [to] coordinate minus that of the absolute [from] coordinate. *)
Definition displacement_spec (from to : Pose.t) : Vec3 :=
  let d := turf_distance (absolute_spec from) (absolute_spec to) in
  let b := turf_bearing (absolute_spec from) (absolute_spec to) * PI / 180 in
  mkVec3 (d * sin b) (d * cos b)
         (v2 (absolute_spec to) - v2 (absolute_spec from)).

(** A pose of the platform seen from the start pose: the geospatial vector
    from the start pose, taken through the inverted matrix of the start
    pose. *)
Definition relativeOffset_of (startPose currPose : Pose.t) : Vec3 :=
  MathGL.transformVector
    (MathGL.invert (MathGL.getTransformationMatrix (newPose_of startPose)))
    (getGeospatialVector startPose currPose).

End Displacement.

(** ** Sample data *)

Module Sample.
Local Open Scope R_scope.




(** At the anchor [(0, 0, 0)], one meter along [x]. *)
Definition shifted : Pose.t :=
  Pose.mk (Some 1) None None None None None None None None.

(** At the anchor [(0, 0, 0)], heading [yaw]. *)
Definition heading (yaw : R) : Pose.t :=
  Pose.mk None None None None None None None None (Some yaw).

Definition car (x : R) : Obj.t := Obj.mk "car" x 0 0 1 2.

Definition bike : Obj.t := Obj.mk "bike" 5 5 0 0 2.

(** Two frames: the car appears in frame 1 only. *)
Definition objectFrames : list (list Obj.t) := [[bike]; [bike; car 1]].

(** Two frames in which the car never appears. *)
Definition bikeFrames : list (list Obj.t) := [[bike]; [bike]].

Definition objectMap : gmap Z (list Obj.t) :=
  {[ 0%Z := [bike]; 1%Z := [bike; car 1] ]}.

(** Two pose frames at the same place; the platform has turned around in
    frame 1. *)
Definition poseFrames : list PoseFrame :=
  [mkPoseFrame (heading 0); mkPoseFrame (heading PI)].

(** On the equator at longitude [lng], heading [yaw]. *)
Definition facing (lng yaw : R) : Pose.t :=
  Pose.mk None None None (Some lng) None None None None (Some yaw).


(** Two pose frames of a platform at rest. *)
Definition restFrames : list PoseFrame :=
  [mkPoseFrame (heading 0); mkPoseFrame (heading 0)].

(** A vertex of three coordinates and one of two. *)
Definition vertices : list Vertex := [Vertex3 1 2 3; Vertex2 4 5].

End Sample.

(** * Properties *)

(** ** Faults and loops *)

Lemma bind_Ok {A B} (r : Result A) (k : A → Result B) (b : B) :
  r ≫= k = Ok b → ∃ a, r = Ok a ∧ k a = Ok b.
Proof. destruct r as [a|e]; simpl; [eauto | discriminate]. Qed.

Lemma fmap_Ok {A B} (f : A → B) (r : Result A) (b : B) :
  f <$> r = Ok b → ∃ a, r = Ok a ∧ b = f a.
Proof. destruct r as [a|e]; simpl; [|discriminate]. intros [= <-]. eauto. Qed.

Lemma read_Ok {A} (site : Site) (o : option A) (a : A) :
  read site o = Ok a → o = Some a.
Proof. destruct o; simpl; congruence. Qed.

(** Every fault of the helpers is a [TypeError]. *)
Lemma not_Ok_Throw {A} (r : Result A) :
  (∀ a, r ≠ Ok a) → ∃ site, r = Throw (TypeError site).
Proof.
  destruct r as [a|[site]]; intros Hr; [by destruct (Hr a) | eauto].
Qed.

Ltac inv_Ok :=
  repeat match goal with
  | H : _ ≫= _ = Ok _ |- _ =>
      let a := fresh "a" in let Ha := fresh "Ha" in
      apply bind_Ok in H as (a & Ha & H)
  | H : _ <$> _ = Ok _ |- _ =>
      let a := fresh "a" in let Ha := fresh "Ha" in
      apply fmap_Ok in H as (a & Ha & H)
  | H : read _ _ = Ok _ |- _ => apply read_Ok in H
  | H : Ok _ = Ok _ |- _ => injection H as H
  end.

Lemma forEach_Ok_length {A B} (f : A → Result B) (l : list A) (bs : list B) :
  forEach f l = Ok bs → length bs = length l.
Proof.
  revert bs. induction l as [|a l IH]; intros bs Hl; simpl in Hl.
  - by injection Hl as <-.
  - inv_Ok. subst bs. simpl. f_equal. by apply IH.
Qed.

Lemma forEach_Ok_lookup {A B} (f : A → Result B) (l : list A) (bs : list B) :
  forEach f l = Ok bs →
  ∀ (k : nat) (a : A), l !! k = Some a → ∃ b, f a = Ok b ∧ bs !! k = Some b.
Proof.
  revert bs. induction l as [|a0 l IH]; intros bs Hl k a Hk; [done|].
  simpl in Hl. inv_Ok. subst bs. destruct k as [|k]; simpl in *.
  - injection Hk as <-. eauto.
  - eauto.
Qed.

Lemma forEachFrom_Ok_length {A B} (f : Z → A → Result B) (i : Z)
    (l : list A) (bs : list B) :
  forEachFrom f i l = Ok bs → length bs = length l.
Proof.
  revert i bs. induction l as [|a l IH]; intros i bs Hl; simpl in Hl.
  - by injection Hl as <-.
  - inv_Ok. subst bs. simpl. f_equal. by eapply IH.
Qed.

Lemma forEachFrom_Ok_lookup {A B} (f : Z → A → Result B) (i : Z)
    (l : list A) (bs : list B) :
  forEachFrom f i l = Ok bs →
  ∀ (k : nat) (a : A), l !! k = Some a →
    ∃ b, f (i + Z.of_nat k)%Z a = Ok b ∧ bs !! k = Some b.
Proof.
  revert i bs. induction l as [|a0 l IH]; intros i bs Hl k a Hk; [done|].
  simpl in Hl. inv_Ok. subst bs. destruct k as [|k]; simpl in Hk.
  - injection Hk as <-. rewrite Z.add_0_r. eauto.
  - edestruct IH as (b & Hb & Hbs); [eassumption..|].
    exists b. split; [|done].
    by replace (i + Z.of_nat (S k))%Z with (i + 1 + Z.of_nat k)%Z by lia.
Qed.

Lemma array_get_Some {A} (arr : list A) (i : Z) (a : A) :
  array_get arr i = Some a ↔ (0 ≤ i)%Z ∧ arr !! Z.to_nat i = Some a.
Proof.
  unfold array_get. destruct (decide (0 ≤ i)%Z) as [Hi|Hi].
  - split; [by intros ->|by intros [_ ->]].
  - split; [discriminate|by intros [? _]].
Qed.

Lemma array_get_in_range {A} (arr : list A) (i : Z) :
  (0 ≤ i < Z.of_nat (length arr))%Z → is_Some (array_get arr i).
Proof.
  intros Hi. unfold array_get. rewrite decide_True by lia.
  apply lookup_lt_is_Some. lia.
Qed.

(** ** Frame storage *)

(** C8. Frame-storage uniformity: on an array of frames and on a [Map] with
    exactly the entries of the array (each index mapped to the element at
    that index, and nothing else), the frame-object lookup returns the same
    result at every frame number. *)
Theorem getFrameObjects_uniform
    (n : Z) (A : list (list Obj.t)) (M : gmap Z (list Obj.t)) :
  (∀ i : Z, M !! i = array_get A i) →
  getFrameObjects (FramesArray A) n = getFrameObjects (FramesMap M) n.
Proof. intros HM. simpl. by rewrite HM. Qed.

(** ** The platform trajectory: clipping *)

Section PoseTrajectoryClipping.
Context `{Geodesy}.

(** C9. Monotonic clipping: an end frame beyond the pose array gives the
    same trajectory (or the same fault) as the length of the array. *)
Theorem getPoseTrajectory_clip
    (poses : list PoseFrame) (s e : Z) :
  (e > Z.of_nat (length poses))%Z →
  getPoseTrajectory poses s e
  = getPoseTrajectory poses s (Z.of_nat (length poses)).
Proof.
  intros He. unfold getPoseTrajectory.
  by rewrite Z.min_id, Z.min_r by lia.
Qed.

(** C10. An empty clipped range: when [poses[startFrame]] exists and
    [min(endFrame, poses.length) <= startFrame], the loop collects nothing,
    the read of the reference pose succeeds, and the result is the empty
    trajectory. *)
Theorem getPoseTrajectory_empty_range
    (poses : list PoseFrame) (s e : Z) :
  (0 ≤ s < Z.of_nat (length poses))%Z →
  (Z.min e (Z.of_nat (length poses)) ≤ s)%Z →
  getPoseTrajectory poses s e = Ok [].
Proof.
  intros Hs He. unfold getPoseTrajectory.
  destruct (array_get_in_range poses s Hs) as [f Hf].
  rewrite seqZ_nil by lia. simpl. by rewrite Hf.
Qed.

End PoseTrajectoryClipping.

(** ** The object trajectory: which frames are resolved *)

Lemma forEach_total {A B} (f : A → Result B) (l : list A) :
  (∀ a, a ∈ l → ∃ b, f a = Ok b) → ∃ bs, forEach f l = Ok bs.
Proof.
  induction l as [|a l IH]; intros Hf; simpl; [eauto|].
  destruct (Hf a) as [b ->]; [left|].
  destruct IH as [bs ->]; [intros; apply Hf; by right|].
  simpl. eauto.
Qed.

Lemma forEachFrom_Throw {A B} (P : Fault → Prop) (f : Z → A → Result B)
    (i : Z) (l : list A) (e : Fault) :
  (∀ j a e', f j a = Throw e' → P e') →
  forEachFrom f i l = Throw e → P e.
Proof.
  intros Hf. revert i. induction l as [|a l IH]; intros i; simpl; [done|].
  destruct (f i a) as [b|e'] eqn:Hb; simpl.
  - destruct (forEachFrom f (i + 1) l) as [bs|e'] eqn:Hbs; simpl; [done|].
    intros [= <-]. eauto.
  - intros [= <-]. eauto.
Qed.

Lemma findObject_Ok_Some (objects : JsValue (list Obj.t)) (t step : Obj.t) :
  findObject objects t = Ok (Some step) →
  ∃ l, objects = value l ∧ step ∈ l ∧ Obj.id step = Obj.id t.
Proof.
  destruct objects as [| |l]; simpl; [discriminate..|].
  intros [= Hfind]. apply find_some in Hfind as [Hin Heq].
  exists l. split; [done|]. split; [by apply list_elem_of_In|].
  by apply String.eqb_eq.
Qed.

(** The frames that [getObjectMotions] resolves, in order: entry [k] of the
    result is what the search finds in frame [max(firstFrame, startFrame) + k]. *)
Lemma getObjectMotions_Ok
    (t : Obj.t) (frames : Frames) (s e : Z) (motions : list (option Obj.t)) :
  getObjectMotions t frames s e = Ok motions →
  length motions
    = Z.to_nat (Z.min (Obj.lastFrame t) e - Z.max (Obj.firstFrame t) s) ∧
  ∀ (k : nat) (step : option Obj.t),
    motions !! k = Some step →
    findObject
      (getFrameObjects frames (Z.max (Obj.firstFrame t) s + Z.of_nat k)) t
    = Ok step.
Proof.
  unfold getObjectMotions. intros Hm. split.
  - by rewrite (forEach_Ok_length _ _ _ Hm), length_seqZ.
  - intros k step Hk.
    assert (k < length motions)%nat as Hlt by by eapply lookup_lt_Some.
    rewrite (forEach_Ok_length _ _ _ Hm), length_seqZ in Hlt.
    edestruct (forEach_Ok_lookup _ _ _ Hm k) as (b & Hb & Hb');
      [apply lookup_seqZ; split; [reflexivity | lia]|].
    simpl in Hb. congruence.
Qed.

Section ObjectTrajectoryFacts.
Context `{Geodesy}.

(** What [getObjectTrajectory] returns when it returns: point [k] is the
    offset of the record found in frame [max(firstFrame, startFrame) + k],
    transformed with the pose of frame [startFrame + k]. *)
Lemma getObjectTrajectory_Ok
    (t : Obj.t) (frames : Frames) (poseFrames : list PoseFrame) (s e : Z)
    (traj : list Vec3) :
  getObjectTrajectory t frames poseFrames s e = Ok traj →
  ∃ start : PoseFrame,
    array_get poseFrames s = Some start ∧
    length traj
      = Z.to_nat (Z.min e (Obj.lastFrame t) - Z.max s (Obj.firstFrame t)) ∧
    ∀ (k : nat) (p : Vec3),
      traj !! k = Some p →
      ∃ (step : Obj.t) (curr : PoseFrame),
        findObject
          (getFrameObjects frames (Z.max s (Obj.firstFrame t) + Z.of_nat k)) t
        = Ok (Some step) ∧
        array_get poseFrames (s + Z.of_nat k) = Some curr ∧
        p = MathGL.transformVector
              (getGeospatialToPoseTransform (pose curr) (pose start))
              (mkVec3 (Obj.x step) (Obj.y step) (Obj.z step)).
Proof.
  unfold getObjectTrajectory. intros Ht. inv_Ok.
  match goal with H : array_get _ _ = Some ?f |- _ =>
    exists f; split; [exact H|] end.
  subst. rename a0 into motions.
  destruct (getObjectMotions_Ok _ _ _ _ _ Ha0) as [Hlen Hmot].
  rewrite (Z.max_comm s), (forEachFrom_Ok_length _ _ _ _ Ht), Hlen.
  split; [f_equal; lia|].
  intros k p Hk.
  assert (is_Some (motions !! k)) as [step Hstep].
  { apply lookup_lt_is_Some. rewrite <-(forEachFrom_Ok_length _ _ _ _ Ht).
    by eapply lookup_lt_Some. }
  destruct (forEachFrom_Ok_lookup _ _ _ _ Ht k step Hstep) as (p' & Hp' & Hk').
  assert (p' = p) as -> by congruence.
  unfold trajectoryStep in Hp'. rewrite Z.add_0_l in Hp'. inv_Ok. subst.
  match goal with H : array_get _ (s + _) = Some ?f |- _ =>
    eexists _, f; split; [by apply Hmot|]; split; [exact H|done] end.
Qed.

(** C6. Lifetime clipping: a trajectory that is returned has
    [max(0, min(endFrame, lastFrame) - max(startFrame, firstFrame))] points,
    and point [k] is built from the record of the target found in the
    absolute frame [max(startFrame, firstFrame) + k], which lies in
    [[firstFrame, lastFrame)]: it is the offset of that record, transformed
    by [getGeospatialToPoseTransform] from the pose of frame [startFrame + k]
    to the pose of [startFrame]. No record of a frame outside the lifetime
    enters the trajectory. *)
Theorem getObjectTrajectory_lifetime
    (t : Obj.t) (frames : Frames) (poseFrames : list PoseFrame) (s e : Z)
    (traj : list Vec3) :
  getObjectTrajectory t frames poseFrames s e = Ok traj →
  Z.of_nat (length traj)
    = Z.max 0 (Z.min e (Obj.lastFrame t) - Z.max s (Obj.firstFrame t)) ∧
  ∀ (k : nat) (p : Vec3),
    traj !! k = Some p →
    let frame := (Z.max s (Obj.firstFrame t) + Z.of_nat k)%Z in
    (Obj.firstFrame t ≤ frame < Obj.lastFrame t)%Z ∧
    ∃ (step : Obj.t) (curr start : PoseFrame),
      findObject (getFrameObjects frames frame) t = Ok (Some step) ∧
      array_get poseFrames (s + Z.of_nat k) = Some curr ∧
      array_get poseFrames s = Some start ∧
      p = MathGL.transformVector
            (getGeospatialToPoseTransform (pose curr) (pose start))
            (mkVec3 (Obj.x step) (Obj.y step) (Obj.z step)).
Proof.
  intros Ht. destruct (getObjectTrajectory_Ok _ _ _ _ _ _ Ht)
    as (start & Hstart & Hlen & Hpts).
  split; [lia|]. intros k p Hk frame.
  apply lookup_lt_Some in Hk as Hlt.
  split; [subst frame; lia|].
  destruct (Hpts k p Hk) as (step & curr & Hstep & Hcurr & ->).
  by exists step, curr, start.
Qed.

(** The property reads that can fail inside the loop of
    [getObjectTrajectory]. *)
Lemma trajectoryStep_Throw
    (poseFrames : list PoseFrame) (s : Z) (start : Pose.t) (i : Z)
    (step : option Obj.t) (e : Fault) :
  trajectoryStep poseFrames s start i step = Throw e →
  e = TypeError poseFrames_startFrame_i_pose ∨ e = TypeError step_x.
Proof.
  unfold trajectoryStep.
  destruct (array_get poseFrames (s + i)) as [f|]; simpl;
    [|intros [= <-]; by left].
  destruct step as [o|]; simpl; [discriminate|intros [= <-]; by right].
Qed.

(** When some frame of the intersected range has no record with the
    identifier of the target, [getObjectTrajectory] ends in a fault; the
    search itself is the place of the fault only for a frame that has no
    object list. *)
Lemma getObjectTrajectory_missing_object_site
    (t : Obj.t) (frames : Frames) (poseFrames : list PoseFrame) (s e f : Z) :
  (Z.max s (Obj.firstFrame t) ≤ f < Z.min e (Obj.lastFrame t))%Z →
  (∀ l, getFrameObjects frames f = value l →
        Forall (λ o, Obj.id o ≠ Obj.id t) l) →
  ∃ site : Site,
    getObjectTrajectory t frames poseFrames s e = Throw (TypeError site) ∧
    ((∀ g, (Z.max s (Obj.firstFrame t) ≤ g < Z.min e (Obj.lastFrame t))%Z →
           ∃ l, getFrameObjects frames g = value l) →
     site ≠ objects_find).
Proof.
  intros Hf Hmissing.
  destruct (not_Ok_Throw (getObjectTrajectory t frames poseFrames s e))
    as [site Hsite].
  { intros traj Ht.
    destruct (getObjectTrajectory_Ok _ _ _ _ _ _ Ht)
      as (start & _ & Hlen & Hpts).
    assert (is_Some (traj !! Z.to_nat (f - Z.max s (Obj.firstFrame t))))
      as [p Hp] by (apply lookup_lt_is_Some; lia).
    destruct (Hpts _ _ Hp) as (step & _ & Hstep & _).
    replace (Z.max s (Obj.firstFrame t)
             + Z.of_nat (Z.to_nat (f - Z.max s (Obj.firstFrame t))))%Z
      with f in Hstep by lia.
    apply findObject_Ok_Some in Hstep as (l & Hl & Hin & Hid).
    specialize (Hmissing l Hl). rewrite Forall_forall in Hmissing.
    by apply (Hmissing step). }
  exists site. split; [done|]. intros Hlists ->.
  unfold getObjectTrajectory in Hsite.
  destruct (array_get poseFrames s) as [start|]; simpl in Hsite;
    [|discriminate].
  destruct (forEach_total
              (λ i, findObject (getFrameObjects frames i) t)
              (seqZ (Z.max (Obj.firstFrame t) s)
                    (Z.min (Obj.lastFrame t) (Z.min e (Obj.lastFrame t))
                     - Z.max (Obj.firstFrame t) s)))
    as [motions Hmotions].
  { intros g Hg. apply elem_of_seqZ in Hg.
    destruct (Hlists g) as [l ->]; [lia|]. simpl. eauto. }
  unfold getObjectMotions in Hsite. rewrite Hmotions in Hsite. simpl in Hsite.
  apply (forEachFrom_Throw
           (λ e, e = TypeError poseFrames_startFrame_i_pose
                 ∨ e = TypeError step_x)) in Hsite;
    [by destruct Hsite | apply trajectoryStep_Throw].
Qed.

(** C7, amended. When some frame of the intersected range
    [[max(startFrame, firstFrame), min(endFrame, lastFrame))] has no record
    with the identifier of the target, [getObjectTrajectory] does not return:
    the call ends in a fault, and no shorter trajectory that skips the frame
    is returned. The fault comes from the lookup step only if some frame of
    the range has no object list: when every frame of the range has one, the
    search returns [undefined] without a fault and the call fails later. *)
Theorem getObjectTrajectory_missing_object
    (t : Obj.t) (frames : Frames) (poseFrames : list PoseFrame) (s e f : Z) :
  (Z.max s (Obj.firstFrame t) ≤ f < Z.min e (Obj.lastFrame t))%Z →
  (∀ l, getFrameObjects frames f = value l →
        Forall (λ o, Obj.id o ≠ Obj.id t) l) →
  ∃ fault : Fault,
    getObjectTrajectory t frames poseFrames s e = Throw fault ∧
    ((∀ g, (Z.max s (Obj.firstFrame t) ≤ g < Z.min e (Obj.lastFrame t))%Z →
           ∃ l, getFrameObjects frames g = value l) →
     fault ≠ TypeError objects_find).
Proof.
  intros Hf Hmissing.
  destruct (getObjectTrajectory_missing_object_site
              t frames poseFrames s e f Hf Hmissing) as (site & Hsite & Hnot).
  exists (TypeError site). split; [done|].
  intros Hlists [= ->]. by apply Hnot.
Qed.

(** The sample trajectory of the car: one point, the offset recorded in frame
    1 transformed with the pose of frame 0. *)
Lemma sample_trajectory :
  getObjectTrajectory (Sample.car 1) (FramesArray Sample.objectFrames)
                      Sample.poseFrames 0 2
  = Ok [MathGL.transformVector
          (getGeospatialToPoseTransform (Sample.heading 0) (Sample.heading 0))
          (mkVec3 1 0 0)].
Proof. reflexivity. Qed.

End ObjectTrajectoryFacts.

(** ** The geospatial vector *)

Section GeospatialVector.
Context `{Geodesy}.
Local Open Scope R_scope.

(** C5. [getGeospatialVector(from, to)] is the triple
    [(d sin b, d cos b, altitude difference)] of the specification: [d] the
    great-circle distance and [b] the bearing, converted to radians, between
    the absolute coordinates of the two records, each the record's meter
    offset added to its anchor, with absent fields taken as 0. *)
Theorem getGeospatialVector_spec (from to : Pose.t) :
  getGeospatialVector from to = displacement_spec from to.
Proof.
  assert (∀ v, or0 v = field_or_zero v) as Hfield by (by intros [r|]).
  unfold getGeospatialVector, displacement_spec, absolute_spec.
  unfold turf_degreesToRadians. by rewrite !Hfield.
Qed.

(** The vector from a coordinate to itself vanishes as soon as the distance
    from a coordinate to itself does. *)
Lemma getGeospatialVector_self (p : Pose.t) :
  (∀ c, turf_distance c c = 0) →
  getGeospatialVector p p = origin.
Proof.
  intros Hd. unfold getGeospatialVector, origin. rewrite Hd.
  f_equal; ring.
Qed.

End GeospatialVector.

(** ** Rigid transforms *)

Section RigidTransforms.
Local Open Scope R_scope.
Import MathGL.

Lemma Vec3_eq (a b : Vec3) :
  v0 a = v0 b → v1 a = v1 b → v2 a = v2 b → a = b.
Proof. destruct a, b; simpl; by intros -> -> ->. Qed.

Lemma transformVector_multiply (a b : Matrix4) (p : Vec3) :
  transformVector (multiply a b) p = transformVector a (transformVector b p).
Proof. apply Vec3_eq; simpl; ring. Qed.

Lemma transformVector_origin (a : Matrix4) :
  transformVector a origin = translation a.
Proof. apply Vec3_eq; simpl; ring. Qed.

Lemma sin2_cos2' (a : R) : sin a * sin a + cos a * cos a = 1.
Proof. generalize (sin2_cos2 a). unfold Rsqr. lra. Qed.


Lemma invert_getTransformationMatrix_r (q : Pose) (p : Vec3) :
  transformVector (getTransformationMatrix q)
                  (transformVector (invert (getTransformationMatrix q)) p) = p.
Proof.
  destruct q as [x y z r pt w]. destruct p as [a b c].
  unfold getTransformationMatrix, invert, transformVector; simpl.
  generalize (sin2_cos2' r) (sin2_cos2' pt) (sin2_cos2' w).
  generalize (sin r) (cos r) (sin pt) (cos pt) (sin w) (cos w).
  intros sr cr sp cp sw cw Hr Hp Hw.
  apply Vec3_eq; simpl; nsatz.
Qed.

End RigidTransforms.

(** ** The relative transform of two poses *)

Section RelativeTransform.
Context `{Geodesy}.
Local Open Scope R_scope.


Lemma toWorldAxes_toLocalAxes (q : Pose.t) (v : Vec3) :
  toWorldAxes q (toLocalAxes q v) = v.
Proof. apply invert_getTransformationMatrix_r. Qed.

Lemma toLocalAxes_vopp (q : Pose.t) (v : Vec3) :
  toLocalAxes q (vopp v) = vopp (toLocalAxes q v).
Proof. apply Vec3_eq; simpl; ring. Qed.




(** The matrix in closed form: the geospatial vector from [from] to [to] is
    taken off the point, the difference is expressed in the axes of [to],
    and the result is turned by the rotation of [from]. *)
Lemma getGeospatialToPoseTransform_apply (from to : Pose.t) (p : Vec3) :
  MathGL.transformVector (getGeospatialToPoseTransform from to) p
  = toWorldAxes from
      (toLocalAxes to (vsub p (getGeospatialVector from to))).
Proof.
  unfold getGeospatialToPoseTransform, toLocalAxes, toWorldAxes, orientation.
  generalize (getGeospatialVector from to). intros [a b c].
  apply Vec3_eq; simpl; ring.
Qed.



(** The translational part in general: the negated vector from [from] to
    [to], expressed in the axes of [to] and then turned by the rotation of
    [from]. *)
Lemma getGeospatialToPoseTransform_translation (from to : Pose.t) :
  translation (getGeospatialToPoseTransform from to)
  = toWorldAxes from (vopp (toLocalAxes to (getGeospatialVector from to))).
Proof.
  rewrite <-transformVector_origin, getGeospatialToPoseTransform_apply.
  rewrite <-toLocalAxes_vopp. do 2 f_equal. apply Vec3_eq; simpl; ring.
Qed.


End RelativeTransform.

(** ** Great circles on the sphere *)

Section SphereFacts.
Local Open Scope R_scope.
Import Sphere.

Lemma atan2_pos (y x : R) : 0 < x → atan2 y x = atan (y / x).
Proof. intros Hx. unfold atan2. by destruct (Rlt_dec 0 x). Qed.

Lemma atan2_0_neg (y : R) : y < 0 → atan2 y 0 = - (PI / 2).
Proof.
  intros Hy. unfold atan2.
  destruct (Rlt_dec 0 0) as [H0|_]; [lra|].
  destruct (Rlt_dec 0 y); [lra|]. by destruct (Rlt_dec y 0).
Qed.

Lemma atan2_diag (a : R) : 0 < a → atan2 a a = PI / 4.
Proof.
  intros Ha. rewrite atan2_pos by done.
  replace (a / a) with 1 by (field; lra). apply atan_1.
Qed.

Lemma degreesToRadians_0 : turf_degreesToRadians 0 = 0.
Proof. unfold turf_degreesToRadians. lra. Qed.

Lemma degreesToRadians_90 : turf_degreesToRadians 90 = PI / 2.
Proof. unfold turf_degreesToRadians. lra. Qed.

Lemma degreesToRadians_radiansToDegrees (r : R) :
  turf_degreesToRadians (radiansToDegrees r) = r.
Proof.
  unfold turf_degreesToRadians, radiansToDegrees. field. apply PI_neq0.
Qed.

Lemma Rsqr_sin_PI4 : (sin (PI / 4))² = 1 / 2.
Proof.
  rewrite sin_PI4. unfold Rsqr.
  assert (sqrt 2 * sqrt 2 = 2) as Hs by (apply sqrt_sqrt; lra).
  assert (sqrt 2 ≠ 0) as Hn by (intros H0; rewrite H0 in Hs; lra).
  field_simplify; [|done..]. rewrite <-Rsqr_pow2. unfold Rsqr. rewrite Hs. lra.
Qed.


(** The haversine distance from a coordinate to itself is 0. *)
Lemma distance_self (c : Vec3) : distance c c = 0.
Proof.
  unfold distance. rewrite !Rminus_diag, degreesToRadians_0.
  replace (0 / 2) with 0 by lra. rewrite sin_0.
  replace (0² + 0² * _ * _) with 0 by (unfold Rsqr; ring).
  rewrite sqrt_0, Rminus_0_r, sqrt_1, atan2_pos by lra.
  replace (0 / 1) with 0 by lra. rewrite atan_0. ring.
Qed.

Lemma addMeters_origin (c : Vec3) : addMeters c origin = c.
Proof.
  unfold addMeters, origin, radiansToDegrees. destruct c as [a b d]. simpl.
  f_equal; unfold Rdiv; ring.
Qed.











Lemma atan2_0_pos (y : R) : 0 < y → atan2 y 0 = PI / 2.
Proof.
  intros Hy. unfold atan2.
  destruct (Rlt_dec 0 0) as [H0|_]; [lra|].
  by destruct (Rlt_dec 0 y).
Qed.


Lemma distance_equator_east :
  distance (mkVec3 0 0 0) (mkVec3 90 0 0) = quarter.
Proof.
  unfold distance. simpl.
  rewrite !Rminus_0_r, degreesToRadians_90, degreesToRadians_0.
  replace (0 / 2) with 0 by lra.
  replace (PI / 2 / 2) with (PI / 4) by lra.
  rewrite sin_0, Rsqr_sin_PI4, cos_0.
  replace (0² + 1 / 2 * 1 * 1) with (1 / 2) by (unfold Rsqr; lra).
  replace (1 - 1 / 2) with (1 / 2) by lra.
  rewrite atan2_diag by (apply sqrt_lt_R0; lra).
  unfold quarter. lra.
Qed.

Lemma distance_east_equator :
  distance (mkVec3 90 0 0) (mkVec3 0 0 0) = quarter.
Proof.
  unfold distance. simpl.
  rewrite Rminus_diag, !Rminus_0_l, degreesToRadians_0.
  replace (turf_degreesToRadians (- (90))) with (- (PI / 2))
    by (unfold turf_degreesToRadians; lra).
  replace (0 / 2) with 0 by lra.
  replace (- (PI / 2) / 2) with (- (PI / 4)) by lra.
  rewrite sin_neg. rewrite <-Rsqr_neg.
  rewrite sin_0, Rsqr_sin_PI4, cos_0.
  replace (0² + 1 / 2 * 1 * 1) with (1 / 2) by (unfold Rsqr; lra).
  replace (1 - 1 / 2) with (1 / 2) by lra.
  rewrite atan2_diag by (apply sqrt_lt_R0; lra).
  unfold quarter. lra.
Qed.

(** Along the equator, longitude 90 lies due east of longitude 0. *)
Lemma bearing_equator_east :
  turf_degreesToRadians (bearing (mkVec3 0 0 0) (mkVec3 90 0 0)) = PI / 2.
Proof.
  unfold bearing. rewrite degreesToRadians_radiansToDegrees. simpl.
  rewrite degreesToRadians_90, degreesToRadians_0, Rminus_0_r.
  rewrite sin_PI2, cos_PI2, sin_0, cos_0.
  replace (1 * 1) with 1 by lra.
  replace (1 * 0 - 0 * 1 * 0) with 0 by lra.
  apply atan2_0_pos. lra.
Qed.

(** And longitude 0 due west of longitude 90. *)
Lemma bearing_east_equator :
  turf_degreesToRadians (bearing (mkVec3 90 0 0) (mkVec3 0 0 0))
  = - (PI / 2).
Proof.
  unfold bearing. rewrite degreesToRadians_radiansToDegrees. simpl.
  rewrite degreesToRadians_90, degreesToRadians_0, Rminus_0_l.
  rewrite sin_neg, cos_neg, sin_PI2, cos_PI2, sin_0, cos_0.
  replace (-1 * 1) with (-1) by lra.
  replace (1 * 0 - 0 * 1 * 0) with 0 by lra.
  apply atan2_0_neg. lra.
Qed.

(** The geospatial vectors along the equator between longitude 0 and
    longitude 90, whatever the headings: opposite. *)
Lemma vector_facing_east (w1 w2 : R) :
  @getGeospatialVector geodesy (Sample.facing 0 w1) (Sample.facing 90 w2)
  = mkVec3 quarter 0 0.
Proof.
  unfold getGeospatialVector. simpl.
  change (mkVec3 0 0 0) with origin. rewrite !addMeters_origin.
  unfold origin.
  rewrite bearing_equator_east, distance_equator_east, sin_PI2, cos_PI2.
  simpl. f_equal; ring.
Qed.

Lemma vector_facing_west (w1 w2 : R) :
  @getGeospatialVector geodesy (Sample.facing 90 w1) (Sample.facing 0 w2)
  = mkVec3 (- quarter) 0 0.
Proof.
  unfold getGeospatialVector. simpl.
  change (mkVec3 0 0 0) with origin. rewrite !addMeters_origin.
  unfold origin.
  rewrite bearing_east_equator, distance_east_equator.
  rewrite sin_neg, cos_neg, sin_PI2, cos_PI2. simpl.
  f_equal; ring.
Qed.


End SphereFacts.

(** ** The platform trajectory: its start point *)

Section StartPoint.
Context `{Geodesy}.
Local Open Scope R_scope.

(** Two poses with the same anchor and the same local position are at the
    same coordinate. *)
Lemma getGeospatialVector_colocated (p q : Pose.t) :
  (∀ c, turf_distance c c = 0) →
  anchor p = anchor q → position p = position q →
  getGeospatialVector p q = origin.
Proof.
  intros Hd Ha Hp. unfold getGeospatialVector.
  fold (anchor p) (anchor q) (position p) (position q).
  rewrite Ha, Hp, Hd. unfold origin. f_equal; ring.
Qed.

Lemma toLocalAxes_level (p : Pose.t) (v : Vec3) :
  Pose.roll p = None → Pose.pitch p = None → or0 (Pose.yaw p) = 0 →
  toLocalAxes p v = v.
Proof.
  intros Hr Hp Hy. unfold toLocalAxes, orientation, MathGL.newPose.
  rewrite Hr, Hp. fold (or0 (Pose.yaw p)). rewrite Hy.
  unfold MathGL.getTransformationMatrix; simpl. rewrite sin_0, cos_0.
  apply Vec3_eq; simpl; ring.
Qed.

Lemma toWorldAxes_level (p : Pose.t) (v : Vec3) :
  Pose.roll p = None → Pose.pitch p = None → or0 (Pose.yaw p) = 0 →
  toWorldAxes p v = v.
Proof.
  intros Hr Hp Hy. rewrite <-(toLocalAxes_level p v Hr Hp Hy) at 1.
  apply toWorldAxes_toLocalAxes.
Qed.

(** The trajectory of the single frame [startFrame]: its one point is the
    translation of the inverted matrix of the start pose, the negated local
    position of the start pose expressed in its own axes. *)
Lemma getPoseTrajectory_start_point
    (poses : list PoseFrame) (s : Z) (f : PoseFrame) :
  (∀ c, turf_distance c c = 0) →
  array_get poses s = Some f →
  getPoseTrajectory poses s (s + 1)
  = Ok [vopp (toLocalAxes (pose f) (position (pose f)))].
Proof.
  intros Hd Hf. unfold getPoseTrajectory.
  apply array_get_Some in Hf as Hs. destruct Hs as [Hs Hlt].
  apply lookup_lt_Some in Hlt.
  rewrite Z.min_l by lia.
  replace (s + 1 - s)%Z with 1%Z by lia.
  change (seqZ s 1) with [(0 + s)%Z]. rewrite Z.add_0_l.
  cbn [forEach]. rewrite Hf.
  cbn [read fmap Result_fmap mbind Result_bind map].
  rewrite getGeospatialVector_colocated by done.
  do 2 f_equal. destruct (pose f) as [x y z ? ? ? r pt w].
  apply Vec3_eq; simpl; unfold or0; ring.
Qed.

(** For a start pose without a local position the point is the origin. *)
Lemma getPoseTrajectory_start_point_origin
    (poses : list PoseFrame) (s : Z) (f : PoseFrame) :
  (∀ c, turf_distance c c = 0) →
  array_get poses s = Some f →
  position (pose f) = origin →
  getPoseTrajectory poses s (s + 1) = Ok [origin].
Proof.
  intros Hd Hf Hp. rewrite (getPoseTrajectory_start_point _ _ f) by done.
  rewrite Hp. do 2 f_equal. apply Vec3_eq; simpl; ring.
Qed.

End StartPoint.

(** ** Worked cases on the sphere *)

Section WorkedCases.
Import Sphere.
Local Existing Instance geodesy.
Local Open Scope R_scope.

Lemma geodesy_distance_self (c : Vec3) : turf_distance c c = 0.
Proof. apply distance_self. Qed.

(** C2. The self-consistency property fails on a start pose with a local
    position: for the single pose [{x: 1}] the trajectory of frame 0 alone
    is the point [(-1, 0, 0)], not the origin. *)
Theorem getPoseTrajectory_shifted_start :
  getPoseTrajectory [mkPoseFrame Sample.shifted] 0 1 = Ok [mkVec3 (-1) 0 0].
Proof.
  rewrite (getPoseTrajectory_start_point _ 0 (mkPoseFrame Sample.shifted))
    by (apply geodesy_distance_self || reflexivity).
  rewrite toLocalAxes_level by reflexivity.
  do 2 f_equal. apply Vec3_eq; simpl; lra.
Qed.

Lemma turned_around (p : Vec3) :
  MathGL.transformVector
    (getGeospatialToPoseTransform (Sample.heading PI) (Sample.heading 0)) p
  = mkVec3 (- v0 p) (- v1 p) (v2 p).
Proof.
  rewrite getGeospatialToPoseTransform_apply.
  rewrite toLocalAxes_level by reflexivity.
  rewrite getGeospatialVector_colocated
    by (apply geodesy_distance_self || reflexivity).
  unfold toWorldAxes, orientation, MathGL.getTransformationMatrix; simpl.
  rewrite sin_0, cos_0, sin_PI, cos_PI.
  apply Vec3_eq; simpl; ring.
Qed.

Lemma same_heading (p : Vec3) :
  MathGL.transformVector
    (getGeospatialToPoseTransform (Sample.heading 0) (Sample.heading 0)) p
  = p.
Proof.
  rewrite getGeospatialToPoseTransform_apply.
  rewrite toLocalAxes_level, toWorldAxes_level by reflexivity.
  rewrite getGeospatialVector_colocated
    by (apply geodesy_distance_self || reflexivity).
  apply Vec3_eq; simpl; ring.
Qed.

(** C1. The offset and the pose of a step come from different frames when
    the object appears after [startFrame]. The car is absent from frame 0 and
    recorded at [(1, 0, 0)] in frame 1, where the platform has turned around;
    from [startFrame = 0] the trajectory is the one point [(1, 0, 0)], the
    offset of frame 1 under the pose of frame 0, whereas the pose of frame 1
    takes that offset to [(-1, 0, 0)]. *)
Theorem getObjectTrajectory_pose_of_other_frame :
  findObject (getFrameObjects (FramesArray Sample.objectFrames) 0)
             (Sample.car 1) = Ok None ∧
  findObject (getFrameObjects (FramesArray Sample.objectFrames) 1)
             (Sample.car 1) = Ok (Some (Sample.car 1)) ∧
  getObjectTrajectory (Sample.car 1) (FramesArray Sample.objectFrames)
                      Sample.poseFrames 0 2
  = Ok [mkVec3 1 0 0] ∧
  MathGL.transformVector
    (getGeospatialToPoseTransform (Sample.heading PI) (Sample.heading 0))
    (mkVec3 1 0 0)
  = mkVec3 (-1) 0 0.
Proof.
  split; [reflexivity|]. split; [reflexivity|]. split.
  - rewrite sample_trajectory. by rewrite same_heading.
  - rewrite turned_around. simpl. f_equal; lra.
Qed.



(** A rotated [from]: seen from longitude 0 on the equator, a pose at
    longitude 90 that has turned around lies a quarter of a great circle to
    the east, and the translational part of the transform from it places it
    as far to the west. *)
Lemma turned_from_translation :
  toLocalAxes (Sample.facing 0 0)
    (getGeospatialVector (Sample.facing 0 0) (Sample.facing 90 PI))
  = mkVec3 quarter 0 0 ∧
  translation
    (getGeospatialToPoseTransform (Sample.facing 90 PI) (Sample.facing 0 0))
  = mkVec3 (- quarter) 0 0.
Proof.
  split.
  - rewrite toLocalAxes_level by reflexivity. apply vector_facing_east.
  - rewrite getGeospatialToPoseTransform_translation.
    rewrite toLocalAxes_level by reflexivity.
    rewrite vector_facing_west.
    unfold toWorldAxes, orientation, MathGL.getTransformationMatrix; simpl.
    rewrite sin_0, cos_0, sin_PI, cos_PI.
    apply Vec3_eq; simpl; ring.
Qed.

(** C7 as stated fails: frame 1 has an object list without the car, the
    search returns [undefined] without a fault, and the [TypeError] is raised
    by the read of [step.x] in the loop of [getObjectTrajectory]. *)
Lemma missing_object_counterexample :
  (Z.max 0 (Obj.firstFrame (Sample.car 1)) ≤ 1
   < Z.min 2 (Obj.lastFrame (Sample.car 1)))%Z ∧
  findObject (getFrameObjects (FramesArray Sample.bikeFrames) 1)
             (Sample.car 1) = Ok None ∧
  getObjectTrajectory (Sample.car 1) (FramesArray Sample.bikeFrames)
                      Sample.poseFrames 0 2
  = Throw (TypeError step_x) ∧
  TypeError step_x ≠ TypeError objects_find.
Proof.
  split; [simpl; lia|]. split; [reflexivity|].
  split; [reflexivity | discriminate].
Qed.

End WorkedCases.

(** ** The properties on the sample data *)

Section Instances.
Import Sphere.
Local Existing Instance geodesy.
Local Open Scope R_scope.

Lemma getFrameObjects_uniform_witness :
  (∀ i : Z, Sample.objectMap !! i = array_get Sample.objectFrames i) ∧
  getFrameObjects (FramesArray Sample.objectFrames) 1
  = getFrameObjects (FramesMap Sample.objectMap) 1.
Proof.
  assert (∀ i : Z, Sample.objectMap !! i = array_get Sample.objectFrames i)
    as HM.
  { intros i. unfold Sample.objectMap, array_get.
    destruct (decide (i = 0%Z)) as [->|H0]; [reflexivity|].
    destruct (decide (i = 1%Z)) as [->|H1]; [reflexivity|].
    rewrite lookup_insert_ne, lookup_singleton_ne by done.
    destruct (decide (0 ≤ i)%Z); [|done].
    symmetry. apply lookup_ge_None. simpl. lia. }
  split; [exact HM|]. apply (getFrameObjects_uniform 1 _ _ HM).
Defined.

Lemma getPoseTrajectory_clip_witness :
  (5 > Z.of_nat (length Sample.poseFrames))%Z ∧
  getPoseTrajectory Sample.poseFrames 0 5
  = getPoseTrajectory Sample.poseFrames 0
                      (Z.of_nat (length Sample.poseFrames)).
Proof.
  split; [simpl; lia|].
  apply (getPoseTrajectory_clip Sample.poseFrames 0 5). simpl; lia.
Defined.

Lemma getPoseTrajectory_empty_range_witness :
  (0 ≤ 1 < Z.of_nat (length Sample.poseFrames))%Z ∧
  getPoseTrajectory Sample.poseFrames 1 0 = Ok [].
Proof.
  split; [simpl; lia|].
  apply (getPoseTrajectory_empty_range Sample.poseFrames 1 0); simpl; lia.
Defined.

Lemma getObjectTrajectory_lifetime_witness :
  getObjectTrajectory (Sample.car 1) (FramesArray Sample.objectFrames)
                      Sample.poseFrames 0 2
  = Ok [MathGL.transformVector
          (getGeospatialToPoseTransform (Sample.heading 0) (Sample.heading 0))
          (mkVec3 1 0 0)] ∧
  Z.of_nat 1
  = Z.max 0 (Z.min 2 (Obj.lastFrame (Sample.car 1))
             - Z.max 0 (Obj.firstFrame (Sample.car 1))).
Proof.
  split; [apply sample_trajectory|].
  apply (getObjectTrajectory_lifetime
           (Sample.car 1) (FramesArray Sample.objectFrames)
           Sample.poseFrames 0 2 _ sample_trajectory).
Defined.

Lemma getObjectTrajectory_missing_object_witness :
  ∃ fault : Fault,
    getObjectTrajectory (Sample.car 1) (FramesArray Sample.bikeFrames)
                        Sample.poseFrames 0 2
    = Throw fault ∧
    ((∀ g, (Z.max 0 (Obj.firstFrame (Sample.car 1)) ≤ g
            < Z.min 2 (Obj.lastFrame (Sample.car 1)))%Z →
           ∃ l, getFrameObjects (FramesArray Sample.bikeFrames) g = value l) →
     fault ≠ TypeError objects_find).
Proof.
  apply (getObjectTrajectory_missing_object
           (Sample.car 1) (FramesArray Sample.bikeFrames)
           Sample.poseFrames 0 2 1); [simpl; lia|].
  intros l [= <-]. repeat constructor; discriminate.
Defined.



End Instances.

(** * Further properties of the helpers *)

(** ** Loops over ranges *)

Lemma forEach_ext {A B} (f g : A → Result B) (l : list A) :
  (∀ a, a ∈ l → f a = g a) → forEach f l = forEach g l.
Proof.
  induction l as [|a l IH]; intros Hfg; simpl; [done|].
  rewrite Hfg by left. rewrite IH; [done|]. intros; apply Hfg; by right.
Qed.

Lemma forEach_take {A B} (f : A → Result B) (l : list A) (bs : list B)
    (n : nat) :
  forEach f l = Ok bs → forEach f (take n l) = Ok (take n bs).
Proof.
  revert bs n. induction l as [|a l IH]; intros bs n Hl; simpl in Hl.
  - injection Hl as <-. by rewrite !take_nil.
  - inv_Ok. subst bs. destruct n as [|n]; simpl; [done|].
    rewrite Ha. simpl. erewrite IH by eassumption. done.
Qed.

Lemma forEachFrom_take {A B} (f : Z → A → Result B) (i : Z) (l : list A)
    (bs : list B) (n : nat) :
  forEachFrom f i l = Ok bs → forEachFrom f i (take n l) = Ok (take n bs).
Proof.
  revert i bs n. induction l as [|a l IH]; intros i bs n Hl; simpl in Hl.
  - injection Hl as <-. by rewrite !take_nil.
  - inv_Ok. subst bs. destruct n as [|n]; simpl; [done|].
    rewrite Ha. simpl. erewrite IH by eassumption. done.
Qed.

Lemma seqZ_take_prefix (m n1 n2 : Z) :
  (n1 ≤ n2)%Z → take (Z.to_nat n1) (seqZ m n2) = seqZ m n1.
Proof.
  intros Hn. apply list_eq. intros i.
  destruct (decide (Z.of_nat i < n1)%Z) as [Hi|Hi].
  - rewrite lookup_take_lt by lia. by rewrite !lookup_seqZ_lt by lia.
  - rewrite lookup_take_ge by lia. by rewrite lookup_seqZ_ge by lia.
Qed.

(** The poses a loop over the frames [[s, s + n)] of an array collects. *)
Lemma forEach_read_poses (site : Site) (poses : list PoseFrame) (n : nat) (s : Z) :
  (0 ≤ s)%Z → (Z.to_nat s + n ≤ length poses)%nat →
  forEach (λ i, pose <$> read site (array_get poses i)) (seqZ s (Z.of_nat n))
  = Ok (pose <$> take n (drop (Z.to_nat s) poses)).
Proof.
  revert s. induction n as [|n IH]; intros s Hs Hn.
  - by rewrite take_0.
  - rewrite seqZ_cons by lia.
    replace (Z.pred (Z.of_nat (S n))) with (Z.of_nat n) by lia.
    destruct (lookup_lt_is_Some_2 poses (Z.to_nat s)) as [f Hf]; [lia|].
    assert (array_get poses s = Some f) as Hg by by apply array_get_Some.
    cbn [forEach]. rewrite Hg. cbn [read fmap Result_fmap mbind Result_bind].
    rewrite IH by lia. cbn [mbind Result_bind].
    rewrite (drop_S _ _ _ Hf).
    replace (Z.to_nat (Z.succ s)) with (S (Z.to_nat s)) by lia.
    done.
Qed.

Section PoseTrajectoryShape.
Context `{Geodesy}.

(** The trajectory in closed form. *)
Lemma getPoseTrajectory_closed
    (poses : list PoseFrame) (s e : Z) (start : PoseFrame) :
  array_get poses s = Some start →
  getPoseTrajectory poses s e
  = Ok (relativeOffset_of (pose start)
          <$> (pose <$> take (Z.to_nat (Z.min e (Z.of_nat (length poses)) - s))
                             (drop (Z.to_nat s) poses))).
Proof.
  intros Hstart. apply array_get_Some in Hstart as Hs. destruct Hs as [Hs Hlt].
  apply lookup_lt_Some in Hlt. unfold getPoseTrajectory.
  destruct (decide (Z.min e (Z.of_nat (length poses)) - s ≤ 0)%Z) as [Hn|Hn].
  - rewrite seqZ_nil by done. cbn [forEach mbind Result_bind].
    rewrite Hstart. replace (Z.to_nat _) with 0%nat by lia. by rewrite take_0.
  - rewrite <-(Z2Nat.id (Z.min e (Z.of_nat (length poses)) - s)) at 1 by lia.
    rewrite forEach_read_poses by lia.
    cbn [mbind Result_bind]. rewrite Hstart. reflexivity.
Qed.

End PoseTrajectoryShape.

(** ** The platform trajectory: shape, prefixes and faults *)

Section PoseTrajectoryMore.
Context `{Geodesy}.

(** X2. The number of points is the length of the clipped range
    [[startFrame, min(endFrame, poses.length))]. *)
Theorem getPoseTrajectory_length
    (poses : list PoseFrame) (s e : Z) (traj : list Vec3) :
  getPoseTrajectory poses s e = Ok traj →
  Z.of_nat (length traj)
  = Z.max 0 (Z.min e (Z.of_nat (length poses)) - s).
Proof.
  intros Ht.
  assert (∃ start, array_get poses s = Some start) as [start Hstart].
  { unfold getPoseTrajectory in Ht. inv_Ok. eauto. }
  rewrite (getPoseTrajectory_closed _ _ _ _ Hstart) in Ht.
  injection Ht as <-. apply array_get_Some in Hstart as [Hs Hl].
  apply lookup_lt_Some in Hl.
  rewrite !length_fmap, length_take, length_drop. lia.
Qed.

(** X3. Every point is relative to the one pose [poses[startFrame]]: point
    [k] is the geospatial vector from that pose to the pose of frame
    [startFrame + k], taken through the inverted matrix of that pose. *)
Theorem getPoseTrajectory_point
    (poses : list PoseFrame) (s e : Z) (traj : list Vec3) (k : nat) (p : Vec3) :
  getPoseTrajectory poses s e = Ok traj →
  traj !! k = Some p →
  ∃ start curr : PoseFrame,
    array_get poses s = Some start ∧
    array_get poses (s + Z.of_nat k) = Some curr ∧
    (s + Z.of_nat k < e)%Z ∧
    p = MathGL.transformVector
          (MathGL.invert
             (MathGL.getTransformationMatrix (newPose_of (pose start))))
          (getGeospatialVector (pose start) (pose curr)).
Proof.
  intros Ht Hk.
  assert (∃ start, array_get poses s = Some start) as [start Hstart].
  { unfold getPoseTrajectory in Ht. inv_Ok. eauto. }
  rewrite (getPoseTrajectory_closed _ _ _ _ Hstart) in Ht.
  injection Ht as <-. apply array_get_Some in Hstart as Hs.
  destruct Hs as [Hs _].
  rewrite !list_lookup_fmap in Hk.
  destruct (take _ _ !! k) as [curr|] eqn:Hcurr; [|done].
  injection Hk as <-.
  apply lookup_take_Some in Hcurr as [Hcurr Hlt]. rewrite lookup_drop in Hcurr.
  exists start, curr. split; [done|]. split; [|split; [lia|done]].
  apply array_get_Some. split; [lia|].
  by replace (Z.to_nat (s + Z.of_nat k)) with (Z.to_nat s + k)%nat by lia.
Qed.

(** X4. A later [endFrame] only appends points: the trajectory up to [e1] is
    the prefix of the trajectory up to any [e2 >= e1]. *)
Theorem getPoseTrajectory_prefix
    (poses : list PoseFrame) (s e1 e2 : Z) (traj2 : list Vec3) :
  (e1 ≤ e2)%Z →
  getPoseTrajectory poses s e2 = Ok traj2 →
  getPoseTrajectory poses s e1 = Ok (take (Z.to_nat (e1 - s)) traj2).
Proof.
  intros He Ht.
  assert (∃ start, array_get poses s = Some start) as [start Hstart].
  { unfold getPoseTrajectory in Ht. inv_Ok. eauto. }
  rewrite (getPoseTrajectory_closed _ _ _ _ Hstart) in Ht.
  rewrite (getPoseTrajectory_closed _ _ _ _ Hstart).
  injection Ht as <-. f_equal.
  rewrite <-!fmap_take, take_take. do 3 f_equal. lia.
Qed.

(** X5. Frames added at the end of [poses] do not change a trajectory that
    ends within the frames there were. *)
Theorem getPoseTrajectory_app
    (poses more : list PoseFrame) (s e : Z) :
  (0 ≤ s < Z.of_nat (length poses))%Z →
  (e ≤ Z.of_nat (length poses))%Z →
  getPoseTrajectory (poses ++ more) s e = getPoseTrajectory poses s e.
Proof.
  intros Hs He. destruct (array_get_in_range poses s Hs) as [start Hstart].
  assert (array_get (poses ++ more) s = Some start) as Hstart'.
  { apply array_get_Some in Hstart as [? Hl]. apply array_get_Some.
    split; [done|]. by apply lookup_app_l_Some. }
  rewrite (getPoseTrajectory_closed _ _ _ _ Hstart).
  rewrite (getPoseTrajectory_closed _ _ _ _ Hstart').
  do 3 f_equal. rewrite length_app.
  rewrite !Z.min_l by lia.
  rewrite drop_app_le by lia. apply take_app_le. rewrite length_drop. lia.
Qed.

(** X6. A [startFrame] that is not an index of [poses] faults: in the loop,
    at [poses[i].pose], when it is negative and the clipped range is not
    empty, and otherwise at [poses[startFrame].pose]. *)
Theorem getPoseTrajectory_fault (poses : list PoseFrame) (s e : Z) :
  ¬ (0 ≤ s < Z.of_nat (length poses))%Z →
  getPoseTrajectory poses s e
  = Throw (TypeError
             (if decide (s < 0 ∧ s < Z.min e (Z.of_nat (length poses)))%Z
              then poses_i_pose else poses_startFrame_pose)).
Proof.
  intros Hs. unfold getPoseTrajectory.
  assert (array_get poses s = None) as Hnone.
  { unfold array_get. destruct (decide (0 ≤ s)%Z); [|done].
    apply lookup_ge_None. lia. }
  destruct (decide (s < 0 ∧ s < Z.min e (Z.of_nat (length poses)))%Z)
    as [[Hneg Hlt]|Hno].
  - rewrite seqZ_cons by lia. cbn [forEach]. by rewrite Hnone.
  - rewrite seqZ_nil by lia. cbn [forEach mbind Result_bind]. by rewrite Hnone.
Qed.

Local Open Scope R_scope.

Lemma relativeOffset_of_self (p : Pose.t) :
  (∀ c, turf_distance c c = 0) →
  relativeOffset_of p p = vopp (toLocalAxes p (position p)).
Proof.
  intros Hd. unfold relativeOffset_of.
  rewrite getGeospatialVector_colocated by done.
  destruct p as [x y z ? ? ? r pt w].
  apply Vec3_eq; simpl; unfold or0; ring.
Qed.

(** X7. When the distance from a coordinate to itself is 0 and the start
    pose has no local position, every trajectory that is returned for a
    range that is not empty starts at the origin. *)
Theorem getPoseTrajectory_first_point_origin
    (poses : list PoseFrame) (s e : Z) (start : PoseFrame)
    (traj : list Vec3) :
  (∀ c, turf_distance c c = 0) →
  getPoseTrajectory poses s e = Ok traj →
  array_get poses s = Some start →
  position (pose start) = origin →
  (s < e)%Z →
  ∃ rest, traj = origin :: rest.
Proof.
  intros Hd Ht Hstart Hp He.
  rewrite (getPoseTrajectory_closed _ _ _ _ Hstart) in Ht.
  injection Ht as <-.
  apply array_get_Some in Hstart as [Hs Hl].
  rewrite (drop_S _ _ _ Hl). apply lookup_lt_Some in Hl.
  destruct (Z.to_nat (Z.min e (Z.of_nat (length poses)) - s)) as [|n] eqn:Hn;
    [lia|].
  cbn [take fmap list_fmap]. eexists. f_equal.
  rewrite relativeOffset_of_self by done. rewrite Hp.
  apply Vec3_eq; simpl; ring.
Qed.

End PoseTrajectoryMore.

(** ** Frame lookup and motions *)

(** X8. Only a storage that is neither a [Map] nor an array gives [null]; a
    [Map] or an array gives the frame's objects or [undefined]. *)
Theorem getFrameObjects_null_iff (frames : Frames) (n : Z) :
  getFrameObjects frames n = null ↔ frames = FramesOther.
Proof.
  destruct frames as [m|a|]; simpl; [| |done].
  - destruct (m !! n); split; discriminate.
  - destruct (array_get a n); split; discriminate.
Qed.

(** X9. On an array of frames the lookup gives [undefined] exactly for the
    frame numbers outside [[0, frames.length)]. *)
Theorem getFrameObjects_array_bounds (a : list (list Obj.t)) (n : Z) :
  getFrameObjects (FramesArray a) n = undefined
  ↔ ¬ (0 ≤ n < Z.of_nat (length a))%Z.
Proof.
  simpl. split.
  - destruct (array_get a n) as [l|] eqn:Hn; [discriminate|]. intros _ Hr.
    destruct (array_get_in_range a n Hr) as [l Hl]. congruence.
  - intros Hr. destruct (array_get a n) as [l|] eqn:Hn; [|done].
    apply array_get_Some in Hn as [? Hl]. apply lookup_lt_Some in Hl. lia.
Qed.

Lemma find_first {A} (f : A → bool) (l : list A) (x : A) :
  List.find f l = Some x →
  ∃ l1 l2, l = l1 ++ x :: l2 ∧ f x = true ∧ Forall (λ y, f y = false) l1.
Proof.
  induction l as [|a l IH]; simpl; [discriminate|].
  destruct (f a) eqn:Hfa.
  - intros [= ->]. exists [], l. by repeat split.
  - intros Hx. destruct (IH Hx) as (l1 & l2 & -> & Hfx & Hl1).
    exists (a :: l1), l2. repeat split; [done|]. by constructor.
Qed.

Lemma id_eqb_false (o t : Obj.t) :
  String.eqb (Obj.id o) (Obj.id t) = false ↔ Obj.id o ≠ Obj.id t.
Proof. apply String.eqb_neq. Qed.

(** X10. [getObjectMotions] returns exactly when every frame of the clipped
    range [[max(firstFrame, startFrame), min(lastFrame, endFrame))] has an
    object list; whether the target is in the lists plays no part. *)
Theorem getObjectMotions_returns_iff
    (t : Obj.t) (frames : Frames) (s e : Z) :
  (∃ motions, getObjectMotions t frames s e = Ok motions)
  ↔ ∀ f, (Z.max (Obj.firstFrame t) s ≤ f < Z.min (Obj.lastFrame t) e)%Z →
         ∃ l, getFrameObjects frames f = value l.
Proof.
  split.
  - intros [motions Hm] f Hf. unfold getObjectMotions in Hm.
    edestruct (forEach_Ok_lookup _ _ _ Hm
                 (Z.to_nat (f - Z.max (Obj.firstFrame t) s)) f)
      as (b & Hb & _).
    { apply lookup_seqZ. lia. }
    simpl in Hb. destruct (getFrameObjects frames f); [done..|eauto].
  - intros Hlists. apply forEach_total. intros f Hf.
    apply elem_of_seqZ in Hf. destruct (Hlists f) as [l ->]; [lia|].
    simpl. eauto.
Qed.

(** X11. Entry [k] of the motions is the first record of frame
    [max(firstFrame, startFrame) + k] that has the identifier of the target,
    later records with the identifier being ignored; it is [undefined] when
    the frame has no such record. *)
Theorem getObjectMotions_first_match
    (t : Obj.t) (frames : Frames) (s e : Z) (motions : list (option Obj.t))
    (k : nat) (step : option Obj.t) :
  getObjectMotions t frames s e = Ok motions →
  motions !! k = Some step →
  ∃ l, getFrameObjects frames (Z.max (Obj.firstFrame t) s + Z.of_nat k)
       = value l ∧
       match step with
       | Some o =>
           ∃ l1 l2, l = l1 ++ o :: l2 ∧ Obj.id o = Obj.id t ∧
                    Forall (λ y, Obj.id y ≠ Obj.id t) l1
       | None => Forall (λ y, Obj.id y ≠ Obj.id t) l
       end.
Proof.
  intros Hm Hk. destruct (getObjectMotions_Ok _ _ _ _ _ Hm) as [_ Hsteps].
  specialize (Hsteps k step Hk).
  destruct (getFrameObjects frames _) as [| |l]; simpl in Hsteps;
    [done..|].
  injection Hsteps as Hfind. exists l. split; [done|].
  destruct step as [o|].
  - apply find_first in Hfind as (l1 & l2 & -> & Hid & Hl1).
    exists l1, l2. split; [done|]. split; [by apply String.eqb_eq|].
    eapply Forall_impl; [exact Hl1|]. intros y. apply id_eqb_false.
  - apply Forall_forall. intros y Hy. apply id_eqb_false.
    apply (find_none _ _ Hfind). by apply list_elem_of_In.
Qed.

(** X12. With a storage that is neither a [Map] nor an array,
    [getObjectMotions] returns the empty list when the clipped range is empty
    and faults at the search otherwise. *)
Theorem getObjectMotions_other_storage (t : Obj.t) (s e : Z) :
  getObjectMotions t FramesOther s e
  = if decide (Z.max (Obj.firstFrame t) s < Z.min (Obj.lastFrame t) e)%Z
    then Throw (TypeError objects_find) else Ok [].
Proof.
  unfold getObjectMotions. case_decide as Hr.
  - by rewrite seqZ_cons by lia.
  - by rewrite seqZ_nil by lia.
Qed.

Section ObjectTrajectoryMore.
Context `{Geodesy}.

(** X13. [getObjectTrajectory] returns only when [poseFrames[startFrame]]
    exists and, for every step [k] of the clipped range, frame
    [max(startFrame, firstFrame) + k] has an object list with a record of the
    target and [poseFrames[startFrame + k]] exists. *)
Theorem getObjectTrajectory_returns_only_if
    (t : Obj.t) (frames : Frames) (poseFrames : list PoseFrame) (s e : Z)
    (traj : list Vec3) :
  getObjectTrajectory t frames poseFrames s e = Ok traj →
  is_Some (array_get poseFrames s) ∧
  ∀ k, (0 ≤ k < Z.min e (Obj.lastFrame t) - Z.max s (Obj.firstFrame t))%Z →
       is_Some (array_get poseFrames (s + k)) ∧
       ∃ l o, getFrameObjects frames (Z.max s (Obj.firstFrame t) + k)
              = value l ∧ o ∈ l ∧ Obj.id o = Obj.id t.
Proof.
  intros Ht.
  destruct (getObjectTrajectory_Ok _ _ _ _ _ _ Ht)
    as (start & Hstart & Hlen & Hpts).
  split; [eauto|]. intros k Hk.
  assert (is_Some (traj !! Z.to_nat k)) as [p Hp]
    by (apply lookup_lt_is_Some; lia).
  destruct (Hpts _ _ Hp) as (step & curr & Hstep & Hcurr & _).
  rewrite Z2Nat.id in Hstep, Hcurr by lia.
  split; [eauto|].
  apply findObject_Ok_Some in Hstep as (l & Hl & Hin & Hid). eauto.
Qed.

(** X14. On an empty clipped range, [min(endFrame, lastFrame) <=
    max(startFrame, firstFrame)], no frame is looked up: the result is the
    empty trajectory when [poseFrames[startFrame]] exists, and the fault of
    its read when it does not. *)
Theorem getObjectTrajectory_empty_range
    (t : Obj.t) (frames : Frames) (poseFrames : list PoseFrame) (s e : Z) :
  (Z.min e (Obj.lastFrame t) ≤ Z.max s (Obj.firstFrame t))%Z →
  getObjectTrajectory t frames poseFrames s e
  = match array_get poseFrames s with
    | Some _ => Ok []
    | None => Throw (TypeError poseFrames_startFrame_pose)
    end.
Proof.
  intros He. unfold getObjectTrajectory, getObjectMotions.
  destruct (array_get poseFrames s) as [start|]; [|done].
  by rewrite seqZ_nil by lia.
Qed.

(** X15. For an object that exists at [startFrame], [firstFrame <=
    startFrame], the offset and the pose of every step come from the same
    frame: point [k] is the offset recorded in frame [startFrame + k],
    transformed from the pose of frame [startFrame + k] to the pose of
    [startFrame]. *)
Theorem getObjectTrajectory_aligned
    (t : Obj.t) (frames : Frames) (poseFrames : list PoseFrame) (s e : Z)
    (traj : list Vec3) (k : nat) (p : Vec3) :
  (Obj.firstFrame t ≤ s)%Z →
  getObjectTrajectory t frames poseFrames s e = Ok traj →
  traj !! k = Some p →
  ∃ (step : Obj.t) (curr start : PoseFrame),
    array_get poseFrames s = Some start ∧
    array_get poseFrames (s + Z.of_nat k) = Some curr ∧
    findObject (getFrameObjects frames (s + Z.of_nat k)) t = Ok (Some step) ∧
    p = MathGL.transformVector
          (getGeospatialToPoseTransform (pose curr) (pose start))
          (offset_of step).
Proof.
  intros Hfirst Ht Hk.
  destruct (getObjectTrajectory_Ok _ _ _ _ _ _ Ht)
    as (start & Hstart & _ & Hpts).
  destruct (Hpts k p Hk) as (step & curr & Hstep & Hcurr & ->).
  rewrite Z.max_l in Hstep by done. by exists step, curr, start.
Qed.

(** X16. The trajectory is the same whether the object frames are stored in an
    array or in a [Map] with exactly the entries of the array. *)
Theorem getObjectTrajectory_storage
    (t : Obj.t) (A : list (list Obj.t)) (M : gmap Z (list Obj.t))
    (poseFrames : list PoseFrame) (s e : Z) :
  (∀ i : Z, M !! i = array_get A i) →
  getObjectTrajectory t (FramesMap M) poseFrames s e
  = getObjectTrajectory t (FramesArray A) poseFrames s e.
Proof.
  intros HM. unfold getObjectTrajectory, getObjectMotions.
  erewrite (forEach_ext _ (λ i, findObject (getFrameObjects (FramesArray A) i) t));
    [done|].
  intros i _. simpl. by rewrite HM.
Qed.

(** X17. An [endFrame] beyond the lifetime of the object gives the same
    trajectory, or the same fault, as [lastFrame]. *)
Theorem getObjectTrajectory_clip_lastFrame
    (t : Obj.t) (frames : Frames) (poseFrames : list PoseFrame) (s e : Z) :
  (Obj.lastFrame t ≤ e)%Z →
  getObjectTrajectory t frames poseFrames s e
  = getObjectTrajectory t frames poseFrames s (Obj.lastFrame t).
Proof.
  intros He. unfold getObjectTrajectory.
  by rewrite Z.min_id, Z.min_r by done.
Qed.

(** X18. A later [endFrame] only appends points: when the trajectory up to
    [e2] is returned, the trajectory up to any [e1 <= e2] is returned too and
    is its prefix. *)
Theorem getObjectTrajectory_prefix
    (t : Obj.t) (frames : Frames) (poseFrames : list PoseFrame) (s e1 e2 : Z)
    (traj2 : list Vec3) :
  (e1 ≤ e2)%Z →
  getObjectTrajectory t frames poseFrames s e2 = Ok traj2 →
  getObjectTrajectory t frames poseFrames s e1
  = Ok (take (Z.to_nat (e1 - Z.max s (Obj.firstFrame t))) traj2).
Proof.
  intros He Ht. unfold getObjectTrajectory in Ht |- *.
  destruct (array_get poseFrames s) as [start|]; [|done].
  cbn [read fmap Result_fmap mbind Result_bind] in Ht |- *.
  destruct (getObjectMotions t frames s (Z.min e2 (Obj.lastFrame t)))
    as [motions2|] eqn:Hm2; [|done].
  cbn [mbind Result_bind] in Ht.
  set (n := Z.to_nat (e1 - Z.max s (Obj.firstFrame t))).
  assert (getObjectMotions t frames s (Z.min e1 (Obj.lastFrame t))
          = Ok (take n motions2)) as ->.
  { unfold getObjectMotions in Hm2 |- *.
    apply (forEach_take _ _ _ n) in Hm2. rewrite <-Hm2. f_equal.
    apply list_eq. intros i. subst n.
    destruct (decide (Z.of_nat i < e1 - Z.max s (Obj.firstFrame t))%Z).
    - rewrite lookup_take_lt by lia.
      destruct (decide (Z.of_nat i < Z.min (Obj.lastFrame t)
                                        (Z.min e1 (Obj.lastFrame t))
                                      - Z.max (Obj.firstFrame t) s)%Z).
      + by rewrite !lookup_seqZ_lt by lia.
      + by rewrite !lookup_seqZ_ge by lia.
    - rewrite lookup_take_ge by lia. by rewrite lookup_seqZ_ge by lia. }
  cbn [mbind Result_bind]. by apply forEachFrom_take.
Qed.

End ObjectTrajectoryMore.

(** ** Rigid motions *)

Section Rigid.
Import MathGL.
Local Open Scope R_scope.

(** A pose matrix moves points rigidly. *)
Lemma getTransformationMatrix_dist2 (q : Pose) (a b : Vec3) :
  dist2 (transformVector (getTransformationMatrix q) a)
        (transformVector (getTransformationMatrix q) b)
  = dist2 a b.
Proof.
  destruct q as [x y z r pt w]. destruct a as [a0 a1 a2], b as [b0 b1 b2].
  unfold dist2, getTransformationMatrix, transformVector, Rsqr; simpl.
  generalize (sin2_cos2' r) (sin2_cos2' pt) (sin2_cos2' w).
  generalize (sin r) (cos r) (sin pt) (cos pt) (sin w) (cos w).
  intros sr cr sp cp sw cw Hr Hp Hw. nsatz.
Qed.

Lemma invert_getTransformationMatrix_dist2 (q : Pose) (a b : Vec3) :
  dist2 (transformVector (invert (getTransformationMatrix q)) a)
        (transformVector (invert (getTransformationMatrix q)) b)
  = dist2 a b.
Proof.
  rewrite <-(getTransformationMatrix_dist2 q).
  by rewrite !invert_getTransformationMatrix_r.
Qed.

End Rigid.

Section VectorMore.
Context `{Geodesy}.
Local Open Scope R_scope.

(** X20. The horizontal length of the geospatial vector is the great-circle
    distance of the two absolute coordinates, whatever the bearing. *)
Theorem getGeospatialVector_horizontal_length (from to : Pose.t) :
  (v0 (getGeospatialVector from to))² + (v1 (getGeospatialVector from to))²
  = (turf_distance (absolute from) (absolute to))².
Proof.
  unfold getGeospatialVector; simpl.
  fold (anchor from) (anchor to) (position from) (position to).
  fold (absolute from) (absolute to).
  generalize (turf_distance (absolute from) (absolute to)). intros d.
  generalize (sin2_cos2'
                (turf_degreesToRadians
                   (turf_bearing (absolute from) (absolute to)))).
  unfold Rsqr. intros Hb. nsatz.
Qed.

(** X21. When the distance from a coordinate to itself is 0, two poses with
    the same anchor and the same local position have the zero vector between
    them, whatever their orientations. *)
Theorem getGeospatialVector_same_place (p q : Pose.t) :
  (∀ c, turf_distance c c = 0) →
  anchor p = anchor q → position p = position q →
  getGeospatialVector p q = origin.
Proof.
  intros Hd Ha Hp. unfold getGeospatialVector.
  fold (anchor p) (anchor q) (position p) (position q).
  rewrite Ha, Hp, Hd. unfold origin. f_equal; ring.
Qed.

(** X22. [getGeospatialToPoseTransform] is a rigid motion: it keeps the
    distance of any two points. *)
Theorem getGeospatialToPoseTransform_isometry (from to : Pose.t) (a b : Vec3) :
  dist2 (MathGL.transformVector (getGeospatialToPoseTransform from to) a)
        (MathGL.transformVector (getGeospatialToPoseTransform from to) b)
  = dist2 a b.
Proof.
  rewrite !getGeospatialToPoseTransform_apply. unfold toWorldAxes.
  rewrite getTransformationMatrix_dist2. unfold toLocalAxes.
  rewrite invert_getTransformationMatrix_dist2.
  generalize (getGeospatialVector from to).
  destruct a as [a0 a1 a2], b as [b0 b1 b2]. intros [c0 c1 c2].
  unfold dist2, Rsqr; simpl. ring.
Qed.

Lemma getGeospatialToPoseTransform_colocated (p q : Pose.t) (v : Vec3) :
  (∀ c, turf_distance c c = 0) →
  anchor p = anchor q → position p = position q →
  orientation p = orientation q →
  MathGL.transformVector (getGeospatialToPoseTransform p q) v = v.
Proof.
  intros Hd Ha Hp Ho. rewrite getGeospatialToPoseTransform_apply.
  rewrite getGeospatialVector_colocated by done.
  rewrite <-(toWorldAxes_toLocalAxes q v) at 2.
  unfold toLocalAxes, toWorldAxes. rewrite Ho. do 2 f_equal.
  apply Vec3_eq; simpl; ring.
Qed.

(** X23. When the distance from a coordinate to itself is 0, the transform
    between two poses at the same place with the same orientation leaves
    every point where it is. *)
Theorem getGeospatialToPoseTransform_same_pose (p q : Pose.t) (v : Vec3) :
  (∀ c, turf_distance c c = 0) →
  anchor p = anchor q → position p = position q →
  orientation p = orientation q →
  MathGL.transformVector (getGeospatialToPoseTransform p q) v = v.
Proof.
  intros Hd Ha Hp Ho. rewrite getGeospatialToPoseTransform_apply.
  rewrite getGeospatialVector_colocated by done.
  rewrite <-(toWorldAxes_toLocalAxes q v) at 2.
  unfold toLocalAxes, toWorldAxes. rewrite Ho. do 2 f_equal.
  apply Vec3_eq; simpl; ring.
Qed.


(** X19. For a platform that stays in one pose, the trajectory of an object
    is the sequence of its recorded offsets. *)
Theorem getObjectTrajectory_platform_at_rest
    (t : Obj.t) (frames : Frames) (poseFrames : list PoseFrame) (s e : Z)
    (q : Pose.t) (traj : list Vec3) (k : nat) (p : Vec3) :
  (∀ c, turf_distance c c = 0) →
  Forall (λ f, pose f = q) poseFrames →
  getObjectTrajectory t frames poseFrames s e = Ok traj →
  traj !! k = Some p →
  ∃ step,
    findObject
      (getFrameObjects frames (Z.max s (Obj.firstFrame t) + Z.of_nat k)) t
    = Ok (Some step) ∧
    p = offset_of step.
Proof.
  intros Hd Hq Ht Hk.
  destruct (getObjectTrajectory_Ok _ _ _ _ _ _ Ht)
    as (start & Hstart & _ & Hpts).
  destruct (Hpts k p Hk) as (step & curr & Hstep & Hcurr & ->).
  exists step. split; [done|].
  rewrite Forall_forall in Hq.
  apply array_get_Some in Hstart as [_ Hstart].
  apply array_get_Some in Hcurr as [_ Hcurr].
  rewrite (Hq start), (Hq curr) by by eapply list_elem_of_lookup_2.
  by apply getGeospatialToPoseTransform_colocated.
Qed.

End VectorMore.

Section RelativeCoordinates.
Local Open Scope R_scope.

Lemma transformVertex_level (q : MathGL.Pose) (p : Vertex) :
  MathGL.proll q = 0 → MathGL.ppitch q = 0 → MathGL.pyaw q = 0 →
  transformVertex (MathGL.getTransformationMatrix q) p
  = shiftVertex (MathGL.px q) (MathGL.py q) (MathGL.pz q) p.
Proof.
  intros Hr Hp Hw. destruct q as [x y z r pt w]. simpl in *. subst.
  unfold MathGL.getTransformationMatrix; simpl. rewrite sin_0, cos_0.
  destruct p as [a b c|a b]; simpl; f_equal; ring.
Qed.

(** X25. For a base pose without orientation, [getRelativeCoordinates] moves
    every vertex by the position of the pose, in order. *)
Theorem getRelativeCoordinates_translation
    (vertices : list Vertex) (basePose : BasePose) :
  MathGL.proll (builtPose basePose) = 0 →
  MathGL.ppitch (builtPose basePose) = 0 →
  MathGL.pyaw (builtPose basePose) = 0 →
  getRelativeCoordinates vertices basePose
  = map (shiftVertex (MathGL.px (builtPose basePose))
                     (MathGL.py (builtPose basePose))
                     (MathGL.pz (builtPose basePose)))
        vertices.
Proof.
  intros Hr Hp Hw. unfold getRelativeCoordinates. fold (builtPose basePose).
  apply map_ext. intros p. by apply transformVertex_level.
Qed.

(** X26. For the zero pose, given as an instance or as a plain object whose
    position and orientation are absent or 0, [getRelativeCoordinates]
    returns the vertices unchanged. *)
Theorem getRelativeCoordinates_identity
    (vertices : list Vertex) (basePose : BasePose) :
  builtPose basePose = MathGL.mkPose 0 0 0 0 0 0 →
  getRelativeCoordinates vertices basePose = vertices.
Proof.
  intros Hzero. unfold getRelativeCoordinates. fold (builtPose basePose).
  rewrite Hzero. rewrite <-(map_id vertices) at 2.
  apply map_ext. intros p. rewrite transformVertex_level by done.
  destruct p; simpl; f_equal; ring.
Qed.

(** X27. [getRelativeCoordinates] moves the vertices of three coordinates
    rigidly: the distance of any two of them is kept. *)
Theorem getRelativeCoordinates_rigid
    (vertices : list Vertex) (basePose : BasePose) (i j : nat) (a b : Vec3) :
  vertices !! i = Some (Vertex3_of a) →
  vertices !! j = Some (Vertex3_of b) →
  ∃ a' b',
    getRelativeCoordinates vertices basePose !! i = Some (Vertex3_of a') ∧
    getRelativeCoordinates vertices basePose !! j = Some (Vertex3_of b') ∧
    dist2 a' b' = dist2 a b.
Proof.
  intros Hi Hj. unfold getRelativeCoordinates. fold (builtPose basePose).
  exists (MathGL.transformVector
            (MathGL.getTransformationMatrix (builtPose basePose)) a),
         (MathGL.transformVector
            (MathGL.getTransformationMatrix (builtPose basePose)) b).
  split; [|split].
  - change (map ?f ?l) with (f <$> l). rewrite list_lookup_fmap, Hi.
    destruct a; reflexivity.
  - change (map ?f ?l) with (f <$> l). rewrite list_lookup_fmap, Hj.
    destruct b; reflexivity.
  - apply getTransformationMatrix_dist2.
Qed.

End RelativeCoordinates.

(** ** The further properties on the sample data *)

Section MoreInstances.
Import Sphere.
Local Existing Instance geodesy.
Local Open Scope R_scope.

Lemma sample_pose_trajectory :
  getPoseTrajectory Sample.poseFrames 0 5
  = Ok [relativeOffset_of (Sample.heading 0) (Sample.heading 0);
        relativeOffset_of (Sample.heading 0) (Sample.heading PI)].
Proof. reflexivity. Qed.

Lemma sample_bike_trajectory :
  getObjectTrajectory Sample.bike (FramesArray Sample.objectFrames)
                      Sample.poseFrames 0 2
  = Ok [MathGL.transformVector
          (getGeospatialToPoseTransform (Sample.heading 0) (Sample.heading 0))
          (offset_of Sample.bike);
        MathGL.transformVector
          (getGeospatialToPoseTransform (Sample.heading PI) (Sample.heading 0))
          (offset_of Sample.bike)].
Proof. reflexivity. Qed.

Lemma sample_rest_trajectory :
  getObjectTrajectory Sample.bike (FramesArray Sample.objectFrames)
                      Sample.restFrames 0 2
  = Ok [MathGL.transformVector
          (getGeospatialToPoseTransform (Sample.heading 0) (Sample.heading 0))
          (offset_of Sample.bike);
        MathGL.transformVector
          (getGeospatialToPoseTransform (Sample.heading 0) (Sample.heading 0))
          (offset_of Sample.bike)].
Proof. reflexivity. Qed.

Lemma sample_motions :
  getObjectMotions (Sample.car 1) (FramesArray Sample.objectFrames) 0 2
  = Ok [Some (Sample.car 1)].
Proof. reflexivity. Qed.

Lemma sample_map_array (i : Z) :
  Sample.objectMap !! i = array_get Sample.objectFrames i.
Proof.
  unfold Sample.objectMap, array_get.
  destruct (decide (i = 0%Z)) as [->|H0]; [reflexivity|].
  destruct (decide (i = 1%Z)) as [->|H1]; [reflexivity|].
  rewrite lookup_insert_ne, lookup_singleton_ne by done.
  destruct (decide (0 ≤ i)%Z); [|done].
  symmetry. apply lookup_ge_None. simpl. lia.
Qed.

End MoreInstances.

Section MoreWitnesses.
Import Sphere.
Local Existing Instance geodesy.
Local Open Scope R_scope.

Lemma getPoseTrajectory_length_witness :
  Z.of_nat 2 = Z.max 0 (Z.min 5 (Z.of_nat (length Sample.poseFrames)) - 0).
Proof.
  apply (getPoseTrajectory_length Sample.poseFrames 0 5 _
           sample_pose_trajectory).
Defined.

Lemma getPoseTrajectory_point_witness :
  ∃ start curr : PoseFrame,
    array_get Sample.poseFrames 0 = Some start ∧
    array_get Sample.poseFrames (0 + Z.of_nat 1) = Some curr ∧
    (0 + Z.of_nat 1 < 5)%Z ∧
    relativeOffset_of (Sample.heading 0) (Sample.heading PI)
    = MathGL.transformVector
        (MathGL.invert
           (MathGL.getTransformationMatrix (newPose_of (pose start))))
        (getGeospatialVector (pose start) (pose curr)).
Proof.
  apply (getPoseTrajectory_point Sample.poseFrames 0 5 _ 1 _
           sample_pose_trajectory eq_refl).
Defined.

Lemma getPoseTrajectory_prefix_witness :
  getPoseTrajectory Sample.poseFrames 0 1
  = Ok (take (Z.to_nat (1 - 0))
          [relativeOffset_of (Sample.heading 0) (Sample.heading 0);
           relativeOffset_of (Sample.heading 0) (Sample.heading PI)]).
Proof.
  eapply (getPoseTrajectory_prefix Sample.poseFrames 0 1 5);
    [lia | apply sample_pose_trajectory].
Defined.

Lemma getPoseTrajectory_app_witness :
  getPoseTrajectory
    ([mkPoseFrame (Sample.heading 0)] ++ [mkPoseFrame (Sample.heading PI)]) 0 1
  = getPoseTrajectory [mkPoseFrame (Sample.heading 0)] 0 1.
Proof.
  apply (getPoseTrajectory_app [mkPoseFrame (Sample.heading 0)]
           [mkPoseFrame (Sample.heading PI)] 0 1); simpl; lia.
Defined.

Lemma getPoseTrajectory_fault_witness :
  getPoseTrajectory Sample.poseFrames 2 5
  = Throw (TypeError
             (if decide (2 < 0 ∧ 2 < Z.min 5 (Z.of_nat (length Sample.poseFrames)))%Z
              then poses_i_pose else poses_startFrame_pose)).
Proof.
  apply (getPoseTrajectory_fault Sample.poseFrames 2 5). simpl. lia.
Defined.

Lemma getPoseTrajectory_first_point_origin_witness :
  ∃ rest,
    [relativeOffset_of (Sample.heading 0) (Sample.heading 0);
     relativeOffset_of (Sample.heading 0) (Sample.heading PI)]
    = origin :: rest.
Proof.
  apply (getPoseTrajectory_first_point_origin Sample.poseFrames 0 5
           (mkPoseFrame (Sample.heading 0)) _ geodesy_distance_self
           sample_pose_trajectory eq_refl eq_refl).
  lia.
Defined.

Lemma getObjectTrajectory_returns_only_if_witness :
  is_Some (array_get Sample.poseFrames 0) ∧
  ∀ k, (0 ≤ k < Z.min 2 (Obj.lastFrame Sample.bike)
                - Z.max 0 (Obj.firstFrame Sample.bike))%Z →
       is_Some (array_get Sample.poseFrames (0 + k)) ∧
       ∃ l o, getFrameObjects (FramesArray Sample.objectFrames)
                (Z.max 0 (Obj.firstFrame Sample.bike) + k)
              = value l ∧ o ∈ l ∧ Obj.id o = Obj.id Sample.bike.
Proof.
  apply (getObjectTrajectory_returns_only_if Sample.bike
           (FramesArray Sample.objectFrames) Sample.poseFrames 0 2 _
           sample_bike_trajectory).
Defined.

Lemma getObjectMotions_first_match_witness :
  ∃ l, getFrameObjects (FramesArray Sample.objectFrames)
         (Z.max (Obj.firstFrame (Sample.car 1)) 0 + Z.of_nat 0)
       = value l ∧
       ∃ l1 l2, l = l1 ++ Sample.car 1 :: l2 ∧
                Obj.id (Sample.car 1) = Obj.id (Sample.car 1) ∧
                Forall (λ y, Obj.id y ≠ Obj.id (Sample.car 1)) l1.
Proof.
  apply (getObjectMotions_first_match (Sample.car 1)
           (FramesArray Sample.objectFrames) 0 2 _ 0 (Some (Sample.car 1))
           sample_motions eq_refl).
Defined.

Lemma getObjectTrajectory_empty_range_witness :
  getObjectTrajectory (Sample.car 1) (FramesArray Sample.objectFrames)
                      Sample.poseFrames 0 1
  = match array_get Sample.poseFrames 0 with
    | Some _ => Ok []
    | None => Throw (TypeError poseFrames_startFrame_pose)
    end.
Proof.
  apply (getObjectTrajectory_empty_range (Sample.car 1)
           (FramesArray Sample.objectFrames) Sample.poseFrames 0 1).
  simpl. lia.
Defined.

Lemma getObjectTrajectory_aligned_witness :
  ∃ (step : Obj.t) (curr start : PoseFrame),
    array_get Sample.poseFrames 0 = Some start ∧
    array_get Sample.poseFrames (0 + Z.of_nat 1) = Some curr ∧
    findObject (getFrameObjects (FramesArray Sample.objectFrames)
                                (0 + Z.of_nat 1)) Sample.bike
    = Ok (Some step) ∧
    MathGL.transformVector
      (getGeospatialToPoseTransform (Sample.heading PI) (Sample.heading 0))
      (offset_of Sample.bike)
    = MathGL.transformVector
        (getGeospatialToPoseTransform (pose curr) (pose start))
        (offset_of step).
Proof.
  eapply (getObjectTrajectory_aligned Sample.bike
            (FramesArray Sample.objectFrames) Sample.poseFrames 0 2 _ 1);
    [simpl; lia | apply sample_bike_trajectory | reflexivity].
Defined.

Lemma getObjectTrajectory_storage_witness :
  getObjectTrajectory Sample.bike (FramesMap Sample.objectMap)
                      Sample.poseFrames 0 2
  = getObjectTrajectory Sample.bike (FramesArray Sample.objectFrames)
                        Sample.poseFrames 0 2.
Proof.
  apply (getObjectTrajectory_storage Sample.bike Sample.objectFrames
           Sample.objectMap Sample.poseFrames 0 2 sample_map_array).
Defined.

Lemma getObjectTrajectory_clip_lastFrame_witness :
  getObjectTrajectory Sample.bike (FramesArray Sample.objectFrames)
                      Sample.poseFrames 0 5
  = getObjectTrajectory Sample.bike (FramesArray Sample.objectFrames)
                        Sample.poseFrames 0 (Obj.lastFrame Sample.bike).
Proof.
  apply (getObjectTrajectory_clip_lastFrame Sample.bike
           (FramesArray Sample.objectFrames) Sample.poseFrames 0 5).
  simpl. lia.
Defined.

Lemma getObjectTrajectory_prefix_witness :
  getObjectTrajectory Sample.bike (FramesArray Sample.objectFrames)
                      Sample.poseFrames 0 1
  = Ok (take (Z.to_nat (1 - Z.max 0 (Obj.firstFrame Sample.bike)))
          [MathGL.transformVector
             (getGeospatialToPoseTransform (Sample.heading 0)
                                           (Sample.heading 0))
             (offset_of Sample.bike);
           MathGL.transformVector
             (getGeospatialToPoseTransform (Sample.heading PI)
                                           (Sample.heading 0))
             (offset_of Sample.bike)]).
Proof.
  eapply (getObjectTrajectory_prefix Sample.bike
            (FramesArray Sample.objectFrames) Sample.poseFrames 0 1 2);
    [lia | apply sample_bike_trajectory].
Defined.

Lemma getObjectTrajectory_platform_at_rest_witness :
  ∃ step,
    findObject
      (getFrameObjects (FramesArray Sample.objectFrames)
         (Z.max 0 (Obj.firstFrame Sample.bike) + Z.of_nat 1)) Sample.bike
    = Ok (Some step) ∧
    MathGL.transformVector
      (getGeospatialToPoseTransform (Sample.heading 0) (Sample.heading 0))
      (offset_of Sample.bike)
    = offset_of step.
Proof.
  eapply (getObjectTrajectory_platform_at_rest Sample.bike
            (FramesArray Sample.objectFrames) Sample.restFrames 0 2
            (Sample.heading 0) _ 1 _ geodesy_distance_self);
    [repeat constructor | apply sample_rest_trajectory | reflexivity].
Defined.

Lemma getGeospatialVector_same_place_witness :
  getGeospatialVector (Sample.heading 0) (Sample.heading PI) = origin.
Proof.
  apply (getGeospatialVector_same_place (Sample.heading 0) (Sample.heading PI)
           geodesy_distance_self eq_refl eq_refl).
Defined.

Lemma getGeospatialToPoseTransform_same_pose_witness :
  MathGL.transformVector
    (getGeospatialToPoseTransform (Sample.heading PI) (Sample.heading PI))
    (mkVec3 1 2 3)
  = mkVec3 1 2 3.
Proof.
  apply (getGeospatialToPoseTransform_same_pose (Sample.heading PI)
           (Sample.heading PI) (mkVec3 1 2 3) geodesy_distance_self
           eq_refl eq_refl eq_refl).
Defined.


Lemma getRelativeCoordinates_translation_witness :
  getRelativeCoordinates Sample.vertices (PoseObject Sample.shifted)
  = map (shiftVertex (MathGL.px (builtPose (PoseObject Sample.shifted)))
                     (MathGL.py (builtPose (PoseObject Sample.shifted)))
                     (MathGL.pz (builtPose (PoseObject Sample.shifted))))
        Sample.vertices.
Proof.
  apply (getRelativeCoordinates_translation Sample.vertices
           (PoseObject Sample.shifted) eq_refl eq_refl eq_refl).
Defined.

Lemma getRelativeCoordinates_identity_witness :
  getRelativeCoordinates Sample.vertices (PoseObject (Sample.heading 0))
  = Sample.vertices.
Proof.
  apply (getRelativeCoordinates_identity Sample.vertices
           (PoseObject (Sample.heading 0)) eq_refl).
Defined.

Lemma getRelativeCoordinates_rigid_witness :
  ∃ a' b',
    getRelativeCoordinates [Vertex3 1 2 3; Vertex3 0 0 1]
                           (PoseObject (Sample.heading PI)) !! 0%nat
    = Some (Vertex3_of a') ∧
    getRelativeCoordinates [Vertex3 1 2 3; Vertex3 0 0 1]
                           (PoseObject (Sample.heading PI)) !! 1%nat
    = Some (Vertex3_of b') ∧
    dist2 a' b' = dist2 (mkVec3 1 2 3) (mkVec3 0 0 1).
Proof.
  apply (getRelativeCoordinates_rigid [Vertex3 1 2 3; Vertex3 0 0 1]
           (PoseObject (Sample.heading PI)) 0 1 (mkVec3 1 2 3) (mkVec3 0 0 1)
           eq_refl eq_refl).
Defined.

End MoreWitnesses.
